(** * AimAssistant_CV: target selection, PD aim controller, coordinate scaling

    A shallow embedding of [src/core/detector.py] (the [Detection] record),
    [src/core/target_selector.py], [src/core/controller.py] and
    [src/utils/coordinate.py], followed by the properties of these
    functions.  The arithmetic of [src/core/capture.py],
    [src/core/mouse_control.py], [src/overlay/hud.py],
    [src/utils/logger.py] and of the loop of [src/main.py] is embedded
    after them; screen capture, inference, drawing, file and device
    access are outside the model.

    Numeric model.  Python [float] values are read as real numbers: the
    arithmetic of the source ([+], [-], [*], [/], [** 2], [math.sqrt], [<],
    [<=], [>]) is the exact arithmetic of [R].  Rounding, overflow and NaN
    are outside this model.  What is kept of Python's behaviour beyond
    the arithmetic is the [ZeroDivisionError] that [/] raises on a zero
    divisor, and [float('inf')] as the initial value of the running
    minimum in [select]. *)

From Stdlib Require Import Reals Lra Lia List ZArith Bool.
From Stdlib Require Import String Ascii Permutation.
Import ListNotations.
Open Scope R_scope.

(** ** Numbers and exceptions *)

Module Py.

(** [a < b], [a <= b] and [a > b] on floats, as booleans. *)
Definition ltb (a b : R) : bool := if Rlt_dec a b then true else false.
Definition leb (a b : R) : bool := if Rle_dec a b then true else false.
Definition gtb (a b : R) : bool := ltb b a.

(** The exceptions the modelled code can raise. *)
Inductive exn : Set := ZeroDivisionError.

(** The outcome of a call: a returned value or a raised exception. *)
Inductive outcome (A : Type) : Type :=
| Returned (a : A)
| Raised (e : exn).
Arguments Returned {A} a.
Arguments Raised {A} e.

(** [a / b]: true division, raising on a zero divisor. *)
Definition div (a b : R) : outcome R :=
  if Req_dec_T b 0 then Raised ZeroDivisionError else Returned (a / b).

(** A float compared against [float('inf')]: either a real or [inf]. *)
Inductive bound : Type :=
| inf
| fin (d : R).

(** [distance < min_distance] where [min_distance] may be [inf]. *)
Definition lt_bound (d : R) (m : bound) : bool :=
  match m with
  | inf => true
  | fin m => ltb d m
  end.

End Py.

(** ** [src/core/detector.py]: the [Detection] dataclass *)

Module Detector.

Record Detection : Type := mkDetection {
  x1 : R;
  y1 : R;
  x2 : R;
  y2 : R;
  score : R;
  class_id : Z
}.

Definition center_x (self : Detection) : R := (x1 self + x2 self) / 2.
Definition center_y (self : Detection) : R := (y1 self + y2 self) / 2.
Definition width (self : Detection) : R := x2 self - x1 self.
Definition height (self : Detection) : R := y2 self - y1 self.

(** [to_screen_coords]: a new box, each coordinate scaled on its axis. *)
Definition to_screen_coords (self : Detection) (scale_x scale_y : R)
    : Detection :=
  {| x1 := x1 self * scale_x;
     y1 := y1 self * scale_y;
     x2 := x2 self * scale_x;
     y2 := y2 self * scale_y;
     score := score self;
     class_id := class_id self |}.

End Detector.

(** ** [src/core/target_selector.py] *)

Module Selector.
Import Detector.

(** The selector object.  [SCREEN_CENTER] is a class attribute that
    [select] reads through [self]; it is carried in the record so that the
    exclusion property can be stated for every anchor.  The constructor
    leaves it at the class value (960, 540). *)
Record TargetSelector : Type := mkTargetSelector {
  SCREEN_CENTER : R * R;
  candidates : list Detection;
  current_target : option Detection
}.

Definition set_candidates (self : TargetSelector) (v : list Detection) :=
  {| SCREEN_CENTER := SCREEN_CENTER self;
     candidates := v;
     current_target := current_target self |}.

Definition set_current_target (self : TargetSelector) (v : option Detection) :=
  {| SCREEN_CENTER := SCREEN_CENTER self;
     candidates := candidates self;
     current_target := v |}.

(** [TargetSelector.__init__] *)
Definition init : TargetSelector :=
  {| SCREEN_CENTER := (960, 540);
     candidates := [];
     current_target := None |}.

(** [_point_in_box]: [x1 <= x <= x2 and y1 <= y <= y2]. *)
Definition _point_in_box (x y : R) (detection : Detection) : bool :=
  (Py.leb (x1 detection) x && Py.leb x (x2 detection)) &&
  (Py.leb (y1 detection) y && Py.leb y (y2 detection)).

(** [calculate_distance] *)
Definition calculate_distance (pos1 pos2 : R * R) : R :=
  sqrt ((fst pos1 - fst pos2) ^ 2 + (snd pos1 - snd pos2) ^ 2).

(** The body of the [for detection in filtered_detections] loop, on the
    loop state [(min_distance, nearest_target)]. *)
Definition scan_step (cursor_x cursor_y : R)
    (st : Py.bound * option Detection) (detection : Detection)
    : Py.bound * option Detection :=
  let '(min_distance, nearest_target) := st in
  let distance :=
    sqrt ((center_x detection - cursor_x) ^ 2 +
          (center_y detection - cursor_y) ^ 2) in
  if Py.lt_bound distance min_distance
  then (Py.fin distance, Some detection)
  else (min_distance, nearest_target).

(** [select]: the returned value and the selector after the call. *)
Definition select (self : TargetSelector) (detections : list Detection)
    (cursor_pos : R * R) : option Detection * TargetSelector :=
  match detections with
  | [] =>
      let self := set_candidates self [] in
      let self := set_current_target self None in
      (None, self)
  | _ :: _ =>
      let '(screen_cx, screen_cy) := SCREEN_CENTER self in
      let filtered_detections :=
        filter (fun det => negb (_point_in_box screen_cx screen_cy det))
               detections in
      let self := set_candidates self filtered_detections in
      match filtered_detections with
      | [] =>
          let self := set_current_target self None in
          (None, self)
      | _ :: _ =>
          let '(cursor_x, cursor_y) := cursor_pos in
          let '(min_distance, nearest_target) :=
            fold_left (scan_step cursor_x cursor_y) filtered_detections
                      (Py.inf, None) in
          let self := set_current_target self nearest_target in
          (nearest_target, self)
      end
  end.

Definition get_candidates (self : TargetSelector) : list Detection :=
  candidates self.

Definition get_current_target (self : TargetSelector) : option Detection :=
  current_target self.

End Selector.

(** ** [src/core/controller.py] *)

Module Controller.

(** The controller object: the five gains and the four state fields. *)
Record AimController : Type := mkAimController {
  kp : R;
  kd : R;
  alpha : R;
  dead_zone : R;
  max_speed : R;
  prev_error_x : R;
  prev_error_y : R;
  prev_output_x : R;
  prev_output_y : R
}.

(** [AimController.__init__] *)
Definition init (kp kd alpha dead_zone max_speed : R) : AimController :=
  {| kp := kp; kd := kd; alpha := alpha;
     dead_zone := dead_zone; max_speed := max_speed;
     prev_error_x := 0; prev_error_y := 0;
     prev_output_x := 0; prev_output_y := 0 |}.

(** The constructor with its default arguments. *)
Definition init_default : AimController :=
  init (15 / 100) (5 / 100) (85 / 100) 5 30.

(** Attribute assignments [self.f = v]. *)
Definition set_kp (v : R) (s : AimController) :=
  mkAimController v (kd s) (alpha s) (dead_zone s) (max_speed s)
    (prev_error_x s) (prev_error_y s) (prev_output_x s) (prev_output_y s).
Definition set_kd (v : R) (s : AimController) :=
  mkAimController (kp s) v (alpha s) (dead_zone s) (max_speed s)
    (prev_error_x s) (prev_error_y s) (prev_output_x s) (prev_output_y s).
Definition set_alpha (v : R) (s : AimController) :=
  mkAimController (kp s) (kd s) v (dead_zone s) (max_speed s)
    (prev_error_x s) (prev_error_y s) (prev_output_x s) (prev_output_y s).
Definition set_dead_zone (v : R) (s : AimController) :=
  mkAimController (kp s) (kd s) (alpha s) v (max_speed s)
    (prev_error_x s) (prev_error_y s) (prev_output_x s) (prev_output_y s).
Definition set_max_speed (v : R) (s : AimController) :=
  mkAimController (kp s) (kd s) (alpha s) (dead_zone s) v
    (prev_error_x s) (prev_error_y s) (prev_output_x s) (prev_output_y s).
Definition set_prev_error_x (v : R) (s : AimController) :=
  mkAimController (kp s) (kd s) (alpha s) (dead_zone s) (max_speed s)
    v (prev_error_y s) (prev_output_x s) (prev_output_y s).
Definition set_prev_error_y (v : R) (s : AimController) :=
  mkAimController (kp s) (kd s) (alpha s) (dead_zone s) (max_speed s)
    (prev_error_x s) v (prev_output_x s) (prev_output_y s).
Definition set_prev_output_x (v : R) (s : AimController) :=
  mkAimController (kp s) (kd s) (alpha s) (dead_zone s) (max_speed s)
    (prev_error_x s) (prev_error_y s) v (prev_output_y s).
Definition set_prev_output_y (v : R) (s : AimController) :=
  mkAimController (kp s) (kd s) (alpha s) (dead_zone s) (max_speed s)
    (prev_error_x s) (prev_error_y s) (prev_output_x s) v.

(** A method body: a function of the object that gives an outcome and the
    object as the body left it.  A raised exception keeps the assignments
    made before it. *)
Definition M (A : Type) : Type := AimController -> Py.outcome A * AimController.

Definition ret {A} (a : A) : M A := fun s => (Py.Returned a, s).

Definition bind {A B} (m : M A) (k : A -> M B) : M B :=
  fun s =>
    match m s with
    | (Py.Returned a, s') => k a s'
    | (Py.Raised e, s') => (Py.Raised e, s')
    end.

(** Read an attribute of [self]. *)
Definition get {A} (f : AimController -> A) : M A :=
  fun s => (Py.Returned (f s), s).

(** Assign an attribute of [self]. *)
Definition assign (f : AimController -> AimController) : M unit :=
  fun s => (Py.Returned tt, f s).

(** An expression that may raise. *)
Definition eval {A} (o : Py.outcome A) : M A := fun s => (o, s).

Declare Scope py_scope.
Delimit Scope py_scope with py.
Notation "x <- m ;; k" := (bind m (fun x => k))
  (at level 61, m at next level, right associativity) : py_scope.
Notation "m ;;; k" := (bind m (fun _ => k))
  (at level 61, right associativity) : py_scope.
Open Scope py_scope.

(** [compute], lines 86 to 116: the PD law, the smoothing, the speed
    clamp and the state update, from the error of this tick. *)
Definition compute_pd (error_x error_y dt : R) : M (R * R) :=
  _kp <- get kp ;;
  let p_x := _kp * error_x in
  let p_y := _kp * error_y in
  _kd <- get kd ;;
  _prev_error_x <- get prev_error_x ;;
  _prev_error_y <- get prev_error_y ;;
  d_x <- eval (Py.div (_kd * (error_x - _prev_error_x)) dt) ;;
  d_y <- eval (Py.div (_kd * (error_y - _prev_error_y)) dt) ;;
  let output_x := p_x + d_x in
  let output_y := p_y + d_y in
  _alpha <- get alpha ;;
  _prev_output_x <- get prev_output_x ;;
  _prev_output_y <- get prev_output_y ;;
  let smoothed_x := _alpha * output_x + (1 - _alpha) * _prev_output_x in
  let smoothed_y := _alpha * output_y + (1 - _alpha) * _prev_output_y in
  let speed := sqrt (smoothed_x ^ 2 + smoothed_y ^ 2) in
  _max_speed <- get max_speed ;;
  smoothed <-
    (if Py.gtb speed _max_speed then
       scale <- eval (Py.div _max_speed speed) ;;
       ret (smoothed_x * scale, smoothed_y * scale)
     else ret (smoothed_x, smoothed_y)) ;;
  let '(smoothed_x, smoothed_y) := smoothed in
  assign (set_prev_error_x error_x) ;;;
  assign (set_prev_error_y error_y) ;;;
  assign (set_prev_output_x smoothed_x) ;;;
  assign (set_prev_output_y smoothed_y) ;;;
  ret (smoothed_x, smoothed_y).

(** [compute], lines 71 to 84, then [compute_pd]. *)
Definition compute (cursor_pos target_pos : R * R) (dt : R) : M (R * R) :=
  let '(cursor_x, cursor_y) := cursor_pos in
  let '(target_x, target_y) := target_pos in
  let error_x := target_x - cursor_x in
  let error_y := target_y - cursor_y in
  let distance := sqrt (error_x ^ 2 + error_y ^ 2) in
  _dead_zone <- get dead_zone ;;
  if Py.ltb distance _dead_zone then
    assign (set_prev_error_x error_x) ;;;
    assign (set_prev_error_y error_y) ;;;
    ret (0, 0)
  else
    compute_pd error_x error_y dt.

(** [reset] *)
Definition reset : M unit :=
  assign (set_prev_error_x 0) ;;;
  assign (set_prev_error_y 0) ;;;
  assign (set_prev_output_x 0) ;;;
  assign (set_prev_output_y 0) ;;;
  ret tt.

(** [if v is not None: self.f = v] *)
Definition assign_if_given (set : R -> AimController -> AimController)
    (v : option R) : M unit :=
  match v with
  | Some v => assign (set v)
  | None => ret tt
  end.

(** [update_params]; an argument left at its default is [None]. *)
Definition update_params (kp kd alpha dead_zone max_speed : option R)
    : M unit :=
  assign_if_given set_kp kp ;;;
  assign_if_given set_kd kd ;;;
  assign_if_given set_alpha alpha ;;;
  assign_if_given set_dead_zone dead_zone ;;;
  assign_if_given set_max_speed max_speed ;;;
  ret tt.

Close Scope py_scope.

End Controller.

(** ** [src/utils/coordinate.py] *)

Module Coordinate.

(** Sizes are pairs of Python integers; [/] on integers is true division. *)
Definition scale_coordinates (x y : R) (from_size to_size : Z * Z)
    : Py.outcome (R * R) :=
  match Py.div (IZR (fst to_size)) (IZR (fst from_size)) with
  | Py.Raised e => Py.Raised e
  | Py.Returned scale_x =>
      match Py.div (IZR (snd to_size)) (IZR (snd from_size)) with
      | Py.Raised e => Py.Raised e
      | Py.Returned scale_y => Py.Returned (x * scale_x, y * scale_y)
      end
  end.

Definition map_to_screen (x y : R) (model_size screen_size : Z * Z)
    : Py.outcome (R * R) :=
  scale_coordinates x y model_size screen_size.

Definition map_to_model (x y : R) (screen_size model_size : Z * Z)
    : Py.outcome (R * R) :=
  scale_coordinates x y screen_size model_size.

(** The default sizes of the two functions. *)
Definition default_model_size : Z * Z := (640%Z, 360%Z).
Definition default_screen_size : Z * Z := (1920%Z, 1080%Z).

Definition get_scale_factors (model_size screen_size : Z * Z)
    : Py.outcome (R * R) :=
  match Py.div (IZR (fst screen_size)) (IZR (fst model_size)) with
  | Py.Raised e => Py.Raised e
  | Py.Returned sx =>
      match Py.div (IZR (snd screen_size)) (IZR (snd model_size)) with
      | Py.Raised e => Py.Raised e
      | Py.Returned sy => Py.Returned (sx, sy)
      end
  end.

End Coordinate.

(** ** Python builtins used by the remaining modules *)

Module Builtins.

(** [round(x)] on a float: the nearest integer, a tie going to the even
    one. *)
Definition round (x : R) : Z :=
  let f := Zfloor x in
  if Rlt_dec (x - IZR f) (1 / 2) then f
  else if Rlt_dec (1 / 2) (x - IZR f) then (f + 1)%Z
  else if Z.even f then f else (f + 1)%Z.

(** [int(x)] on a float: truncation toward zero. *)
Definition int (x : R) : Z :=
  if Rle_dec 0 x then Zfloor x else Zceil x.

(** [sum(l)]: the items added to 0 from left to right. *)
Definition sum (l : list R) : R := fold_left Rplus l 0.

(** [max(l)] and [min(l)] on the non-empty list [x :: l]: the first item
    is replaced by each later item that is greater (smaller). *)
Definition max (x : R) (l : list R) : R :=
  fold_left (fun m y => if Py.gtb y m then y else m) l x.
Definition min (x : R) (l : list R) : R :=
  fold_left (fun m y => if Py.ltb y m then y else m) l x.

(** [a % b] on integers, raising on a zero divisor; the result has the
    sign of [b], as [Z.modulo]. *)
Definition modulo (a b : Z) : Py.outcome Z :=
  if Z.eqb b 0 then Py.Raised Py.ZeroDivisionError
  else Py.Returned (Z.modulo a b).

End Builtins.

(** ** [src/core/capture.py]: the scale factors of [ScreenCapture] *)

Module Capture.

(** The fields the constructor computes from its arguments; the [mss]
    handle it opens is a device resource and is not modelled. *)
Record ScreenCapture : Type := mkScreenCapture {
  screen_width : Z;
  screen_height : Z;
  target_size : Z * Z;
  monitor_top : Z;
  monitor_left : Z;
  monitor_width : Z;
  monitor_height : Z;
  scale_x : R;
  scale_y : R
}.

(** [ScreenCapture.__init__] *)
Definition init (screen_width screen_height : Z) (target_size : Z * Z)
    : Py.outcome ScreenCapture :=
  match Py.div (IZR screen_width) (IZR (fst target_size)) with
  | Py.Raised e => Py.Raised e
  | Py.Returned scale_x =>
      match Py.div (IZR screen_height) (IZR (snd target_size)) with
      | Py.Raised e => Py.Raised e
      | Py.Returned scale_y =>
          Py.Returned
            (mkScreenCapture screen_width screen_height target_size
               0 0 screen_width screen_height scale_x scale_y)
      end
  end.

(** [ScreenCapture.get_scale_factors] *)
Definition get_scale_factors (self : ScreenCapture) : R * R :=
  (scale_x self, scale_y self).

End Capture.

(** ** [src/core/mouse_control.py] *)

Module MouseControl.

(** [move_relative]: the integer step handed to the mouse device's
    [move]. *)
Definition move_relative (dx dy : R) : Z * Z :=
  (Builtins.round dx, Builtins.round dy).

(** [move_absolute]: the integer position assigned to the mouse device. *)
Definition move_absolute (x y : R) : Z * Z :=
  (Builtins.int x, Builtins.int y).

End MouseControl.

(** ** [src/overlay/hud.py] *)

Module Hud.
Import Detector.

(** [_is_same_detection]; the overlay receives the detector's boxes, whose
    fields are those of [DetectionLike]. *)
Definition _is_same_detection (det1 det2 : Detection) : bool :=
  Py.ltb (Rabs (x1 det1 - x1 det2)) 1 &&
  Py.ltb (Rabs (y1 det1 - y1 det2)) 1 &&
  Py.ltb (Rabs (x2 det1 - x2 det2)) 1 &&
  Py.ltb (Rabs (y2 det1 - y2 det2)) 1.

End Hud.

(** ** [src/utils/logger.py] *)

Module Logger.

(** The [LogEntry] dataclass. *)
Record LogEntry : Type := mkLogEntry {
  timestamp : string;
  frame_id : Z;
  aim_assist_enabled : bool;
  detection_count : Z;
  inference_time_ms : R;
  total_latency_ms : R;
  fps : R;
  locked_target_x : option R;
  locked_target_y : option R
}.

(** The logger object.  Its fields [session_start] and [csv_file] only
    name the files it writes; they and the file writes of [_setup],
    [_write_entry] and [save_summary] are not modelled. *)
Record Logger : Type := mkLogger {
  output_dir : string;
  enabled : bool;
  log_interval : Z;
  frame_count : Z;
  entries : list LogEntry
}.

(** [Logger.__init__] *)
Definition init (output_dir : string) (enabled : bool) (log_interval : Z)
    : Logger :=
  {| output_dir := output_dir; enabled := enabled;
     log_interval := log_interval; frame_count := 0; entries := [] |}.

(** [log]; [now] is the reading of [datetime.now().isoformat()] that the
    call takes when it builds an entry. *)
Definition log (now : string) (aim_assist_enabled : bool)
    (detection_count : Z) (inference_time_ms total_latency_ms fps : R)
    (locked_target_x locked_target_y : option R) (self : Logger)
    : Py.outcome unit * Logger :=
  if negb (enabled self) then (Py.Returned tt, self)
  else
    let self :=
      mkLogger (output_dir self) (enabled self) (log_interval self)
               (frame_count self + 1) (entries self) in
    match Builtins.modulo (frame_count self) (log_interval self) with
    | Py.Raised e => (Py.Raised e, self)
    | Py.Returned r =>
        if negb (Z.eqb r 0) then (Py.Returned tt, self)
        else
          let entry :=
            mkLogEntry now (frame_count self) aim_assist_enabled
              detection_count inference_time_ms total_latency_ms fps
              locked_target_x locked_target_y in
          (Py.Returned tt,
           mkLogger (output_dir self) (enabled self) (log_interval self)
                    (frame_count self) (entries self ++ [entry]))
    end.

(** A value of the statistics dictionary. *)
Inductive value : Type :=
| VInt (n : Z)
| VFloat (x : R).

(** [sum(l) / len(l)] *)
Definition average (l : list R) : Py.outcome R :=
  Py.div (Builtins.sum l) (INR (List.length l)).

(** [get_statistics]: the dictionary as the list of its items, in the
    order of the dictionary display. *)
Definition get_statistics (self : Logger)
    : Py.outcome (list (string * value)) :=
  match entries self with
  | [] => Py.Returned []
  | e :: es =>
      let inference_times := map inference_time_ms (entries self) in
      let latencies := map total_latency_ms (entries self) in
      let fps_values := map fps (entries self) in
      match average inference_times with
      | Py.Raised x => Py.Raised x
      | Py.Returned avg_inference =>
      match average latencies with
      | Py.Raised x => Py.Raised x
      | Py.Returned avg_latency =>
      match average fps_values with
      | Py.Raised x => Py.Raised x
      | Py.Returned avg_fps =>
          Py.Returned
            [("total_frames"%string, VInt (frame_count self));
             ("logged_entries"%string,
              VInt (Z.of_nat (List.length (entries self))));
             ("avg_inference_time_ms"%string, VFloat avg_inference);
             ("max_inference_time_ms"%string,
              VFloat (Builtins.max (inference_time_ms e)
                                   (map inference_time_ms es)));
             ("min_inference_time_ms"%string,
              VFloat (Builtins.min (inference_time_ms e)
                                   (map inference_time_ms es)));
             ("avg_latency_ms"%string, VFloat avg_latency);
             ("max_latency_ms"%string,
              VFloat (Builtins.max (total_latency_ms e)
                                   (map total_latency_ms es)));
             ("min_latency_ms"%string,
              VFloat (Builtins.min (total_latency_ms e)
                                   (map total_latency_ms es)));
             ("avg_fps"%string, VFloat avg_fps)]
      end end end
  end.

(** The arguments of one [log] call, with the clock reading it takes. *)
Record log_call : Type := mkLogCall {
  call_now : string;
  call_aim : bool;
  call_detections : Z;
  call_inference : R;
  call_latency : R;
  call_fps : R;
  call_x : option R;
  call_y : option R
}.

(** The logger after one [log] call and after a sequence of them. *)
Definition after_log (self : Logger) (c : log_call) : Logger :=
  snd (log (call_now c) (call_aim c) (call_detections c) (call_inference c)
           (call_latency c) (call_fps c) (call_x c) (call_y c) self).

Definition after_logs (calls : list log_call) (self : Logger) : Logger :=
  fold_left after_log calls self.

(** The frame numbers [k, 2k, ..., m * k]. *)
Definition multiples (k : Z) (m : nat) : list Z :=
  map (fun i => (k * Z.of_nat i)%Z) (seq 1 m).

End Logger.

(** ** [src/main.py]: the selection and control steps of the loop *)

Module Main.
Import Detector.

(** The fields of [AimAssistSystem] that steps 3 to 5 of the loop of
    [run] read and write. *)
Record AimAssistSystem : Type := mkAimAssistSystem {
  aim_enabled : bool;
  scale_x : R;
  scale_y : R;
  selector : Selector.TargetSelector;
  controller : Controller.AimController
}.

(** Steps 3 to 5 of the loop body of [run], from the detections of the
    frame and the position read from the mouse: the target of the frame
    and the step handed to the mouse, if any, with the system after
    them. *)
Definition run_step (detections : list Detection) (cursor_pos : Z * Z)
    (self : AimAssistSystem)
    : Py.outcome (option Detection * option (Z * Z)) * AimAssistSystem :=
  let screen_detections :=
    map (fun det => to_screen_coords det (scale_x self) (scale_y self))
        detections in
  let cursor := (IZR (fst cursor_pos), IZR (snd cursor_pos)) in
  let '(target, selector') :=
    Selector.select (selector self) screen_detections cursor in
  match aim_enabled self, target with
  | true, Some t =>
      let target_pos := (center_x t, center_y t) in
      match Controller.compute cursor target_pos 1 (controller self) with
      | (Py.Returned (dx, dy), controller') =>
          (Py.Returned (target, Some (MouseControl.move_relative dx dy)),
           mkAimAssistSystem (aim_enabled self) (scale_x self) (scale_y self)
             selector' controller')
      | (Py.Raised e, controller') =>
          (Py.Raised e,
           mkAimAssistSystem (aim_enabled self) (scale_x self) (scale_y self)
             selector' controller')
      end
  | _, _ =>
      (Py.Returned (target, None),
       mkAimAssistSystem (aim_enabled self) (scale_x self) (scale_y self)
         selector' (controller self))
  end.

End Main.

(** ** Vocabulary of the properties *)

Module Spec.
Import Detector.

(** The rectangle of [d] contains the point [p], its four edges included. *)
Definition contains (d : Detection) (p : R * R) : Prop :=
  (x1 d <= fst p <= x2 d) /\ (y1 d <= snd p <= y2 d).

(** Euclidean distance from [cursor] to the center of [d]. *)
Definition center_distance (cursor : R * R) (d : Detection) : R :=
  sqrt ((center_x d - fst cursor) ^ 2 + (center_y d - snd cursor) ^ 2).

(** The boxes of [detections] that survive exclusion, in input order. *)
Definition survivors (anchor : R * R) (detections : list Detection)
    : list Detection :=
  filter (fun d => negb (Selector._point_in_box (fst anchor) (snd anchor) d))
         detections.

(** [b] occurs in [l] at a position where it is strictly nearer than every
    box before it and at least as near as every box after it: the first
    box of [l] that achieves the minimum of [dist]. *)
Definition first_min (dist : Detection -> R) (b : Detection)
    (l : list Detection) : Prop :=
  exists l1 l2,
    l = l1 ++ b :: l2 /\
    (forall x, In x l1 -> dist b < dist x) /\
    (forall x, In x l2 -> dist b <= dist x).

(** The loop invariant of [select]'s scan, after the boxes [seen]. *)
Definition scan_inv (cursor : R * R) (st : Py.bound * option Detection)
    (seen : list Detection) : Prop :=
  match st with
  | (Py.inf, None) => seen = []
  | (Py.fin m, Some b) =>
      m = center_distance cursor b /\ first_min (center_distance cursor) b seen
  | _ => False
  end.

(** Euclidean norm of a vector. *)
Definition norm (v : R * R) : R := sqrt (fst v ^ 2 + snd v ^ 2).

(** The selector with nothing stored: no candidates, no current target. *)
Definition cleared (self : Selector.TargetSelector) : Selector.TargetSelector :=
  Selector.mkTargetSelector (Selector.SCREEN_CENTER self) [] None.

(** Sample boxes: two targets away from the screen center, and a box that
    has the screen center (960, 540) on its top-left corner. *)
Definition box_a : Detection := mkDetection 100 100 150 150 (9 / 10) 0.
Definition box_b : Detection := mkDetection 500 300 550 350 (85 / 100) 0.
Definition box_self : Detection := mkDetection 960 540 1000 600 (7 / 10) 0.

(** Two boxes whose centers (1, 1) and (-1, -1) are at the same distance
    from the origin. *)
Definition box_ne : Detection := mkDetection 0 0 2 2 (9 / 10) 0.
Definition box_sw : Detection := mkDetection (-2) (-2) 0 0 (9 / 10) 0.

(** The controller's algorithm in the words of its description: the
    smoothed PD signal before the clamp, from the error of this tick. *)
Definition smoothed (self : Controller.AimController) (error : R * R)
    (dt : R) : R * R :=
  let raw_x :=
    Controller.kp self * fst error +
    Controller.kd self * (fst error - Controller.prev_error_x self) / dt in
  let raw_y :=
    Controller.kp self * snd error +
    Controller.kd self * (snd error - Controller.prev_error_y self) / dt in
  (Controller.alpha self * raw_x +
     (1 - Controller.alpha self) * Controller.prev_output_x self,
   Controller.alpha self * raw_y +
     (1 - Controller.alpha self) * Controller.prev_output_y self).

(** The error vector of a tick: target minus cursor. *)
Definition err (cursor target : R * R) : R * R :=
  (fst target - fst cursor, snd target - snd cursor).

(** A vector scaled by a factor. *)
Definition scaled (k : R) (v : R * R) : R * R := (fst v * k, snd v * k).

(** The speed clamp: a vector longer than [limit] is scaled by
    [limit / |v|], any other vector is kept. *)
Definition clamp (limit : R) (v : R * R) : R * R :=
  if Rlt_dec limit (norm v) then scaled (limit / norm v) v else v.

(** The controller with the same gains and the given history. *)
Definition with_history (self : Controller.AimController)
    (error output : R * R) : Controller.AimController :=
  Controller.mkAimController
    (Controller.kp self) (Controller.kd self) (Controller.alpha self)
    (Controller.dead_zone self) (Controller.max_speed self)
    (fst error) (snd error) (fst output) (snd output).

(** An optional argument: the value given, or else the old one. *)
Definition or_keep (given : option R) (old : R) : R :=
  match given with
  | Some v => v
  | None => old
  end.

End Spec.

(** ** Vocabulary of the further properties *)

Module Calls.

(** A call of a method of the controller that changes its history. *)
Inductive call : Type :=
| Compute (cursor target : R * R) (dt : R)
| Reset.

(** The controller after one call, whether the call returned or raised. *)
Definition after_call (self : Controller.AimController) (c : call)
    : Controller.AimController :=
  match c with
  | Compute cursor target dt => snd (Controller.compute cursor target dt self)
  | Reset => snd (Controller.reset self)
  end.

(** The controller after a sequence of calls. *)
Definition after_calls (calls : list call) (self : Controller.AimController)
    : Controller.AimController :=
  fold_left after_call calls self.

(** The stored previous output, as a vector. *)
Definition prev_output (self : Controller.AimController) : R * R :=
  (Controller.prev_output_x self, Controller.prev_output_y self).

(** Of two optional arguments, the later one if given, else the earlier. *)
Definition or_else (later earlier : option R) : option R :=
  match later with
  | Some v => Some v
  | None => earlier
  end.

End Calls.

(** ** Comparisons *)

Lemma ltb_true (a b : R) : Py.ltb a b = true <-> a < b.
Proof. unfold Py.ltb. destruct (Rlt_dec a b); split; intros; try easy. Qed.

Lemma ltb_false (a b : R) : Py.ltb a b = false <-> b <= a.
Proof.
  unfold Py.ltb. destruct (Rlt_dec a b); split; intros; try easy; lra.
Qed.

Lemma leb_true (a b : R) : Py.leb a b = true <-> a <= b.
Proof. unfold Py.leb. destruct (Rle_dec a b); split; intros; try easy. Qed.

Lemma leb_false (a b : R) : Py.leb a b = false <-> b < a.
Proof.
  unfold Py.leb. destruct (Rle_dec a b); split; intros; try easy; lra.
Qed.

Lemma div_nonzero (a b : R) : b <> 0 -> Py.div a b = Py.Returned (a / b).
Proof. intros Hb. unfold Py.div. destruct (Req_dec_T b 0); easy. Qed.

Lemma div_zero (a : R) : Py.div a 0 = Py.Raised Py.ZeroDivisionError.
Proof. unfold Py.div. destruct (Req_dec_T 0 0); easy. Qed.

(** Decide the comparisons of a goal whose numbers are literals. *)
Ltac py_compare :=
  repeat match goal with
  | |- context [Py.leb ?a ?b] =>
      first [ rewrite (proj2 (leb_true a b)) by lra
            | rewrite (proj2 (leb_false a b)) by lra ]
  | |- context [Py.ltb ?a ?b] =>
      first [ rewrite (proj2 (ltb_true a b)) by lra
            | rewrite (proj2 (ltb_false a b)) by lra ]
  end.

(** ** Target selector *)

Section SelectorFacts.
Import Detector Selector Spec.

Lemma point_in_box_contains (x y : R) (d : Detection) :
  _point_in_box x y d = true <-> contains d (x, y).
Proof.
  unfold _point_in_box, contains; simpl.
  rewrite !andb_true_iff, !leb_true. tauto.
Qed.

Lemma survivors_In (anchor : R * R) (l : list Detection) (d : Detection) :
  In d (survivors anchor l) <-> In d l /\ ~ contains d anchor.
Proof.
  unfold survivors. rewrite filter_In, negb_true_iff.
  destruct anchor as [ax ay]; simpl.
  rewrite <- point_in_box_contains.
  destruct (_point_in_box ax ay d); intuition congruence.
Qed.

Lemma scan_step_distance (cursor : R * R) st d :
  scan_step (fst cursor) (snd cursor) st d =
  if Py.lt_bound (center_distance cursor d) (fst st)
  then (Py.fin (center_distance cursor d), Some d) else st.
Proof. destruct st; reflexivity. Qed.

Lemma first_min_le dist b l x :
  first_min dist b l -> In x l -> dist b <= dist x.
Proof.
  intros (l1 & l2 & -> & H1 & H2) Hx.
  apply in_app_or in Hx. destruct Hx as [Hx | [<- | Hx]].
  - left. now apply H1.
  - right. reflexivity.
  - now apply H2.
Qed.

Lemma scan_step_inv (cursor : R * R) st seen d :
  scan_inv cursor st seen ->
  scan_inv cursor (scan_step (fst cursor) (snd cursor) st d) (seen ++ [d]).
Proof.
  rewrite scan_step_distance.
  destruct st as [[|m] [b|]]; simpl; try contradiction.
  - intros ->. split; [reflexivity|].
    exists [], []. simpl. repeat split; intros x [].
  - intros [-> Hmin].
    destruct (Py.ltb _ _) eqn:E; simpl.
    + apply ltb_true in E. split; [reflexivity|].
      exists seen, []. repeat split.
      * intros x Hx. pose proof (first_min_le _ _ _ _ Hmin Hx). lra.
      * intros x [].
    + apply ltb_false in E. split; [reflexivity|].
      destruct Hmin as (l1 & l2 & -> & H1 & H2).
      exists l1, (l2 ++ [d]). rewrite <- app_assoc. simpl.
      repeat split; [assumption|].
      intros x Hx. apply in_app_or in Hx.
      destruct Hx as [Hx | [<- | []]]; [now apply H2 | assumption].
Qed.

Lemma scan_fold_inv (cursor : R * R) l : forall st seen,
  scan_inv cursor st seen ->
  scan_inv cursor (fold_left (scan_step (fst cursor) (snd cursor)) l st)
           (seen ++ l).
Proof.
  induction l as [|d l IH]; intros st seen H; simpl.
  - now rewrite app_nil_r.
  - replace (seen ++ d :: l) with ((seen ++ [d]) ++ l)
      by (rewrite <- app_assoc; reflexivity).
    apply IH. now apply scan_step_inv.
Qed.

(** A split of the filtered list comes from a split of the list. *)
Lemma filter_split {A} (f : A -> bool) (l : list A) : forall m1 b m2,
  filter f l = m1 ++ b :: m2 ->
  exists l1 l2, l = l1 ++ b :: l2 /\ filter f l1 = m1 /\ filter f l2 = m2.
Proof.
  induction l as [|a l IH]; intros m1 b m2 H; simpl in H.
  - destruct m1; discriminate.
  - destruct (f a) eqn:Ea.
    + destruct m1 as [|c m1]; simpl in H; injection H as -> H.
      * exists [], l. simpl. auto.
      * destruct (IH _ _ _ H) as (l1 & l2 & -> & H1 & H2).
        exists (c :: l1), l2. simpl. rewrite Ea, H1. auto.
    + destruct (IH _ _ _ H) as (l1 & l2 & -> & H1 & H2).
      exists (a :: l1), l2. simpl. rewrite Ea. auto.
Qed.

(** What [select] returns and stores, in terms of the survivors. *)
Lemma select_unfold self detections cursor :
  select self detections cursor =
  let kept := survivors (SCREEN_CENTER self) detections in
  let target :=
    match kept with
    | [] => None
    | _ :: _ =>
        snd (fold_left (scan_step (fst cursor) (snd cursor)) kept
                       (Py.inf, None))
    end in
  (target, mkTargetSelector (SCREEN_CENTER self) kept target).
Proof.
  unfold select, survivors, set_current_target, set_candidates.
  destruct detections as [|d0 l]; [reflexivity|].
  remember (d0 :: l) as dets eqn:Hdets.
  destruct self as [[ax ay] c0 t0], cursor as [cx cy].
  cbn [SCREEN_CENTER candidates current_target fst snd].
  destruct (filter _ dets) as [|k ks]; [reflexivity|].
  destruct (fold_left _ _ _) as [m t]; reflexivity.
Qed.

End SelectorFacts.

Section SelectorTheorems.
Import Detector Selector Spec.

(** C1.  When at least one box of a list of detections survives exclusion,
    [select] returns a surviving box of the list whose center distance to
    the cursor is at most that of every surviving box; on a tie it is the
    first such box in input order: every surviving box before it in the
    list is strictly farther from the cursor. *)
Theorem select_nearest_first (self : TargetSelector)
    (detections : list Detection) (cursor : R * R) :
  (exists d, In d detections /\ ~ contains d (SCREEN_CENTER self)) ->
  exists b before after,
    fst (select self detections cursor) = Some b /\
    detections = before ++ b :: after /\
    ~ contains b (SCREEN_CENTER self) /\
    (forall x, In x detections -> ~ contains x (SCREEN_CENTER self) ->
       center_distance cursor b <= center_distance cursor x) /\
    (forall x, In x before -> ~ contains x (SCREEN_CENTER self) ->
       center_distance cursor b < center_distance cursor x).
Proof.
  intros (d & Hd & Hnot).
  rewrite select_unfold. cbv zeta. cbn [fst].
  assert (Hin : In d (survivors (SCREEN_CENTER self) detections))
    by (apply survivors_In; auto).
  pose proof (scan_fold_inv cursor (survivors (SCREEN_CENTER self) detections)
                (Py.inf, None) [] eq_refl) as Hinv.
  rewrite app_nil_l in Hinv.
  destruct (survivors (SCREEN_CENTER self) detections) as [|k ks] eqn:Ek;
    [destruct Hin|].
  destruct (fold_left _ (k :: ks) _) as [[|m] [b|]]; simpl in Hinv;
    try contradiction; try discriminate.
  destruct Hinv as [_ Hmin]. rewrite <- Ek in Hmin. clear Ek k ks Hin.
  assert (Hle := fun x => first_min_le _ _ _ x Hmin).
  destruct Hmin as (m1 & m2 & Hsplit & Hbefore & _).
  assert (Hb : In b (survivors (SCREEN_CENTER self) detections))
    by (rewrite Hsplit; apply in_or_app; right; now left).
  apply survivors_In in Hb.
  destruct (filter_split _ _ _ _ _ Hsplit) as (l1 & l2 & Hl & H1 & _).
  exists b, l1, l2. cbn [snd]. repeat split.
  - exact Hl.
  - apply Hb.
  - intros x Hx Hnx. apply Hle. apply survivors_In. auto.
  - intros x Hx Hnx. apply Hbefore. rewrite <- H1.
    fold (survivors (SCREEN_CENTER self) l1). apply survivors_In. auto.
Qed.

Lemma select_nearest_first_witness :
  (exists d, In d [box_self; box_b; box_a] /\
             ~ contains d (SCREEN_CENTER init)) /\
  exists b before after,
    fst (select init [box_self; box_b; box_a] (0, 0)) = Some b /\
    [box_self; box_b; box_a] = before ++ b :: after /\
    ~ contains b (SCREEN_CENTER init) /\
    (forall x, In x [box_self; box_b; box_a] ->
       ~ contains x (SCREEN_CENTER init) ->
       center_distance (0, 0) b <= center_distance (0, 0) x) /\
    (forall x, In x before -> ~ contains x (SCREEN_CENTER init) ->
       center_distance (0, 0) b < center_distance (0, 0) x).
Proof.
  assert (H : exists d, In d [box_self; box_b; box_a] /\
                        ~ contains d (SCREEN_CENTER init)).
  { exists box_a. split; [right; right; left; reflexivity|].
    unfold contains; simpl. lra. }
  split; [exact H|].
  exact (select_nearest_first init [box_self; box_b; box_a] (0, 0) H).
Defined.

(** C2.  A box returned by [select] is one of the detections and its
    rectangle, edges included, does not contain the self-anchor point;
    this holds for every anchor the selector carries, the default
    (960, 540) among them. *)
Theorem select_excludes_anchor (self : TargetSelector)
    (detections : list Detection) (cursor : R * R) (b : Detection) :
  fst (select self detections cursor) = Some b ->
  In b detections /\
  ~ (x1 b <= fst (SCREEN_CENTER self) <= x2 b /\
     y1 b <= snd (SCREEN_CENTER self) <= y2 b).
Proof.
  rewrite select_unfold. cbv zeta. cbn [fst].
  pose proof (scan_fold_inv cursor (survivors (SCREEN_CENTER self) detections)
                (Py.inf, None) [] eq_refl) as Hinv.
  rewrite app_nil_l in Hinv.
  destruct (survivors (SCREEN_CENTER self) detections) as [|k ks] eqn:Ek;
    [discriminate|].
  destruct (fold_left _ (k :: ks) _) as [[|m] [t|]]; simpl in Hinv;
    try contradiction; try discriminate.
  cbn [snd]. intros [= ->].
  destruct Hinv as [_ (l1 & l2 & Hl & _)].
  assert (Hb : In b (survivors (SCREEN_CENTER self) detections)).
  { rewrite Ek, Hl. apply in_or_app. right. now left. }
  apply survivors_In in Hb. exact Hb.
Qed.

Lemma select_excludes_anchor_witness :
  fst (select init [box_self; box_b] (0, 0)) = Some box_b /\
  In box_b [box_self; box_b] /\
  ~ (x1 box_b <= fst (SCREEN_CENTER init) <= x2 box_b /\
     y1 box_b <= snd (SCREEN_CENTER init) <= y2 box_b).
Proof.
  assert (H : fst (select init [box_self; box_b] (0, 0)) = Some box_b).
  { unfold select, init, _point_in_box; simpl. py_compare. reflexivity. }
  split; [exact H|].
  exact (select_excludes_anchor init [box_self; box_b] (0, 0) box_b H).
Defined.

(** C6.  [select] on the empty list returns no target, and so does
    [select] on a list whose boxes all contain the self-anchor point; in
    both cases the stored candidate list is empty and the stored current
    target is cleared afterwards. *)
Theorem select_no_target (self : TargetSelector)
    (detections : list Detection) (cursor : R * R) :
  select self [] cursor = (None, cleared self) /\
  ((forall d, In d detections -> contains d (SCREEN_CENTER self)) ->
   select self detections cursor = (None, cleared self)).
Proof.
  split; [reflexivity|].
  intros Hall. rewrite select_unfold. cbv zeta.
  assert (E : survivors (SCREEN_CENTER self) detections = []).
  { destruct (survivors _ _) as [|k ks] eqn:Ek; [reflexivity|].
    assert (Hk : In k (survivors (SCREEN_CENTER self) detections))
      by (rewrite Ek; now left).
    apply survivors_In in Hk. destruct Hk as [Hk Hn].
    destruct (Hn (Hall k Hk)). }
  rewrite E. reflexivity.
Qed.

Lemma select_no_target_witness :
  (forall d, In d [box_self] -> contains d (SCREEN_CENTER init)) /\
  select init [box_self] (0, 0) = (None, cleared init).
Proof.
  assert (H : forall d, In d [box_self] -> contains d (SCREEN_CENTER init)).
  { intros d [<- | []]. unfold contains; simpl. lra. }
  split; [exact H|].
  exact (proj2 (select_no_target init [box_self] (0, 0)) H).
Defined.

(** On an exact tie the box that comes first in the input wins, whichever
    of the two it is. *)
Example select_tie_first :
  center_distance (0, 0) box_ne = center_distance (0, 0) box_sw /\
  fst (select init [box_ne; box_sw] (0, 0)) = Some box_ne /\
  fst (select init [box_sw; box_ne] (0, 0)) = Some box_sw.
Proof.
  assert (E : center_distance (0, 0) box_ne = center_distance (0, 0) box_sw).
  { unfold center_distance, center_x, center_y; simpl. f_equal. field. }
  assert (S1 : survivors (SCREEN_CENTER init) [box_ne; box_sw]
               = [box_ne; box_sw]).
  { unfold survivors, _point_in_box; simpl. py_compare. reflexivity. }
  assert (S2 : survivors (SCREEN_CENTER init) [box_sw; box_ne]
               = [box_sw; box_ne]).
  { unfold survivors, _point_in_box; simpl. py_compare. reflexivity. }
  split; [exact E|].
  split; rewrite select_unfold; cbv zeta; unfold fst at 1.
  - rewrite S1. cbn [fold_left]. rewrite !scan_step_distance.
    cbn [fst Py.lt_bound]. rewrite <- E.
    now rewrite (proj2 (ltb_false _ _) (Rle_refl _)).
  - rewrite S2. cbn [fold_left]. rewrite !scan_step_distance.
    cbn [fst Py.lt_bound]. rewrite E.
    now rewrite (proj2 (ltb_false _ _) (Rle_refl _)).
Qed.

End SelectorTheorems.

(** ** Norms *)

Section NormFacts.
Import Spec.

Lemma norm_nonneg (v : R * R) : 0 <= norm v.
Proof. apply sqrt_pos. Qed.

Lemma norm_zero : norm (0, 0) = 0.
Proof.
  unfold norm; simpl. replace (0 * (0 * 1) + 0 * (0 * 1)) with 0 by ring.
  apply sqrt_0.
Qed.

Lemma norm_axis_x (a : R) : 0 <= a -> norm (a, 0) = a.
Proof.
  intros Ha. unfold norm; simpl.
  replace (a * (a * 1) + 0 * (0 * 1)) with (a * a) by ring.
  now apply sqrt_square.
Qed.

Lemma norm_scaled (k : R) (v : R * R) :
  0 <= k -> norm (scaled k v) = k * norm v.
Proof.
  intros Hk. unfold norm, scaled; simpl.
  replace (fst v * k * (fst v * k * 1) + snd v * k * (snd v * k * 1))
    with ((k * k) * (fst v * (fst v * 1) + snd v * (snd v * 1))) by ring.
  rewrite sqrt_mult_alt by nra.
  now rewrite sqrt_square.
Qed.

Lemma norm_clamp (limit : R) (v : R * R) :
  0 <= limit -> norm (clamp limit v) <= limit.
Proof.
  intros Hl. unfold clamp. destruct (Rlt_dec limit (norm v)) as [Hgt | Hle].
  - assert (Hpos : 0 < norm v) by lra.
    rewrite norm_scaled.
    + right. field. lra.
    + apply Rmult_le_pos; [assumption|]. left. now apply Rinv_0_lt_compat.
  - lra.
Qed.

Lemma norm_3_4 : norm (3, 4) = 5.
Proof.
  unfold norm; simpl.
  replace (3 * (3 * 1) + 4 * (4 * 1)) with (5 * 5) by ring.
  apply sqrt_square. lra.
Qed.

Lemma norm_le (v : R * R) (b : R) :
  0 <= b -> fst v * fst v + snd v * snd v <= b * b -> Spec.norm v <= b.
Proof.
  intros Hb H. unfold Spec.norm; simpl.
  rewrite <- (sqrt_square b Hb).
  apply sqrt_le_1_alt. lra.
Qed.

Lemma norm_ge_fst (v : R * R) : fst v <= Spec.norm v.
Proof.
  destruct (Rle_dec (fst v) 0) as [Hneg | Hpos].
  - pose proof (sqrt_pos (fst v ^ 2 + snd v ^ 2)). unfold Spec.norm. lra.
  - unfold Spec.norm; simpl.
    rewrite <- (sqrt_square (fst v)) at 1 by lra.
    apply sqrt_le_1_alt. nra.
Qed.

End NormFacts.

(** ** Aim controller *)

Section ControllerFacts.
Import Controller Spec.

(** [compute] inside the dead zone. *)
Lemma compute_inside (self : AimController) (cursor target : R * R) (dt : R) :
  norm (err cursor target) < dead_zone self ->
  compute cursor target dt self =
  (Py.Returned (0, 0),
   with_history self (err cursor target)
                (prev_output_x self, prev_output_y self)).
Proof.
  intros H. destruct cursor as [cx cy], target as [tx ty].
  unfold compute, bind, get, assign, ret, err, norm in *; simpl in *.
  now rewrite (proj2 (ltb_true _ _) H).
Qed.

(** [compute] outside the dead zone is its PD part. *)
Lemma compute_outside (self : AimController) (cursor target : R * R) (dt : R) :
  dead_zone self <= norm (err cursor target) ->
  compute cursor target dt self =
  compute_pd (fst target - fst cursor) (snd target - snd cursor) dt self.
Proof.
  intros H. destruct cursor as [cx cy], target as [tx ty].
  unfold compute, bind, get, err, norm in *; simpl in *.
  now rewrite (proj2 (ltb_false _ _) H).
Qed.

(** The PD part returns the clamped smoothed signal and commits it,
    whenever its divisions are defined. *)
Lemma compute_pd_returns (self : AimController) (error : R * R) (dt : R) :
  dt <> 0 -> 0 <= max_speed self ->
  compute_pd (fst error) (snd error) dt self =
  (Py.Returned (clamp (max_speed self) (smoothed self error dt)),
   with_history self error (clamp (max_speed self) (smoothed self error dt))).
Proof.
  intros Hdt Hms. destruct error as [ex ey].
  unfold compute_pd, bind, get, eval, assign, ret; simpl.
  rewrite !(div_nonzero _ dt Hdt).
  unfold clamp, Py.gtb, Py.ltb.
  fold (smoothed self (ex, ey) dt).
  change (sqrt _) with (norm (smoothed self (ex, ey) dt)).
  set (sm := smoothed self (ex, ey) dt).
  destruct (Rlt_dec (max_speed self) (norm sm)) as [Hgt | Hle].
  - rewrite div_nonzero by lra. reflexivity.
  - subst sm. reflexivity.
Qed.

End ControllerFacts.

Lemma compute_pd_dt_zero (self : Controller.AimController) (ex ey : R) :
  Controller.compute_pd ex ey 0 self = (Py.Raised Py.ZeroDivisionError, self).
Proof.
  unfold Controller.compute_pd, Controller.bind, Controller.get,
    Controller.eval; simpl.
  now rewrite div_zero.
Qed.

(** Outside the dead zone, a smoothed signal within the speed limit is
    returned and committed as it is. *)
Lemma compute_unclamped (self : Controller.AimController)
    (cursor target : R * R) (dt : R) (out : R * R) :
  dt <> 0 -> 0 <= Controller.max_speed self ->
  Controller.dead_zone self <= Spec.norm (Spec.err cursor target) ->
  Spec.smoothed self (Spec.err cursor target) dt = out ->
  Spec.norm out <= Controller.max_speed self ->
  Controller.compute cursor target dt self =
  (Py.Returned out, Spec.with_history self (Spec.err cursor target) out).
Proof.
  intros Hdt Hms Hdz Hsm Hout.
  rewrite compute_outside by assumption.
  pose proof (compute_pd_returns self (Spec.err cursor target) dt Hdt Hms) as E.
  cbn [Spec.err fst snd] in E. rewrite E. clear E.
  fold (Spec.err cursor target). rewrite Hsm. unfold Spec.clamp.
  destruct (Rlt_dec _ _); [lra | reflexivity].
Qed.


Section ControllerTheorems.
Import Controller Spec.

(** C3.  When the distance from cursor to target is strictly below
    [dead_zone], [compute] returns exactly (0, 0), stores the fresh error
    as the previous error and leaves the previous output (and the gains)
    as they were.  The comparison is strict: when the distance equals
    [dead_zone], [compute] runs its PD part; so it does for cursor (0, 0),
    target (3, 4) and [dead_zone] 5, where the distance is 5, and a fresh
    controller with the default gains then returns (0.51, 0.68). *)
Theorem compute_dead_zone_strict (self : AimController)
    (cursor target : R * R) (dt : R) :
  (norm (err cursor target) < dead_zone self ->
   compute cursor target dt self =
   (Py.Returned (0, 0),
    with_history self (err cursor target)
                 (prev_output_x self, prev_output_y self))) /\
  (norm (err cursor target) = dead_zone self ->
   compute cursor target dt self =
   compute_pd (fst target - fst cursor) (snd target - snd cursor) dt self) /\
  norm (err (0, 0) (3, 4)) = 5 /\
  (dead_zone self = 5 ->
   compute (0, 0) (3, 4) dt self = compute_pd (3 - 0) (4 - 0) dt self) /\
  compute (0, 0) (3, 4) 1 init_default =
  (Py.Returned (51 / 100, 68 / 100),
   with_history init_default (3, 4) (51 / 100, 68 / 100)).
Proof.
  assert (H34 : norm (err (0, 0) (3, 4)) = 5).
  { unfold err; simpl. replace (3 - 0) with 3 by ring.
    replace (4 - 0) with 4 by ring. apply norm_3_4. }
  split; [apply compute_inside|].
  split; [intros H; apply compute_outside; lra|].
  split; [exact H34|].
  split.
  - intros H5. apply (compute_outside self (0, 0) (3, 4)). lra.
  - rewrite (compute_outside init_default (0, 0) (3, 4))
      by (rewrite H34; simpl; lra).
    cbn [fst snd].
    pose proof (compute_pd_returns init_default (3 - 0, 4 - 0) 1
                  ltac:(lra) ltac:(simpl; lra)) as E.
    cbn [fst snd] in E. rewrite E. clear E.
    assert (Hsm : smoothed init_default (3 - 0, 4 - 0) 1 = (51 / 100, 68 / 100))
      by (unfold smoothed; simpl; f_equal; field).
    rewrite Hsm. unfold clamp.
    destruct (Rlt_dec _ _) as [Hgt | _].
    + exfalso. simpl in Hgt.
      assert (norm (51 / 100, 68 / 100) <= 1) by (apply norm_le; simpl; lra).
      lra.
    + f_equal. unfold with_history; simpl. f_equal; ring.
Qed.

Lemma compute_dead_zone_strict_witness :
  (norm (err (0, 0) (1, 0)) < dead_zone init_default /\
   compute (0, 0) (1, 0) 1 init_default =
   (Py.Returned (0, 0),
    with_history init_default (err (0, 0) (1, 0))
                 (prev_output_x init_default, prev_output_y init_default))) /\
  (norm (err (0, 0) (3, 4)) = dead_zone init_default /\
   compute (0, 0) (3, 4) 1 init_default =
   compute_pd (fst (3, 4) - fst (0, 0)) (snd (3, 4) - snd (0, 0)) 1
              init_default) /\
  (dead_zone (init 1 0 1 5 30) = 5 /\
   compute (0, 0) (3, 4) 2 (init 1 0 1 5 30) =
   compute_pd (3 - 0) (4 - 0) 2 (init 1 0 1 5 30)).
Proof.
  assert (H1 : norm (err (0, 0) (1, 0)) < dead_zone init_default).
  { apply Rle_lt_trans with 1; [|simpl; lra].
    apply norm_le; simpl; lra. }
  assert (H2 : norm (err (0, 0) (3, 4)) = dead_zone init_default).
  { exact (proj1 (proj2 (proj2
      (compute_dead_zone_strict init_default (0, 0) (3, 4) 1)))). }
  assert (H3 : dead_zone (init 1 0 1 5 30) = 5) by reflexivity.
  repeat split; try assumption.
  - exact (proj1 (compute_dead_zone_strict init_default (0, 0) (1, 0) 1) H1).
  - exact (proj1 (proj2
      (compute_dead_zone_strict init_default (0, 0) (3, 4) 1)) H2).
  - exact (proj1 (proj2 (proj2 (proj2
      (compute_dead_zone_strict (init 1 0 1 5 30) (0, 0) (3, 4) 2)))) H3).
Defined.

(** C4.  With [max_speed >= 0], from any state and for any input, a vector
    returned by [compute] has Euclidean norm at most [max_speed], and
    [compute] does return when [dt] is not zero.  When it runs outside
    the dead zone and the smoothed signal is longer than [max_speed], the
    returned vector is the smoothed one scaled by the non-negative factor
    [max_speed / |smoothed|] (same direction), its norm is exactly
    [max_speed], and this clamped vector is what is stored as the previous
    output. *)
Theorem compute_speed_clamped (self : AimController)
    (cursor target : R * R) (dt : R) :
  0 <= max_speed self ->
  (forall out self',
     compute cursor target dt self = (Py.Returned out, self') ->
     norm out <= max_speed self) /\
  (dt <> 0 ->
   exists out self',
     compute cursor target dt self = (Py.Returned out, self')) /\
  (dt <> 0 ->
   dead_zone self <= norm (err cursor target) ->
   max_speed self < norm (smoothed self (err cursor target) dt) ->
   let sm := smoothed self (err cursor target) dt in
   let k := max_speed self / norm sm in
   0 <= k /\ (0 < max_speed self -> 0 < k) /\
   norm (scaled k sm) = max_speed self /\
   compute cursor target dt self =
   (Py.Returned (scaled k sm),
    with_history self (err cursor target) (scaled k sm)) /\
   (prev_output_x (snd (compute cursor target dt self)),
    prev_output_y (snd (compute cursor target dt self))) = scaled k sm).
Proof.
  intros Hms.
  assert (Hpd : dt <> 0 -> dead_zone self <= norm (err cursor target) ->
                compute cursor target dt self =
                (Py.Returned (clamp (max_speed self)
                                (smoothed self (err cursor target) dt)),
                 with_history self (err cursor target)
                   (clamp (max_speed self)
                      (smoothed self (err cursor target) dt)))).
  { intros Hdt Hdz. rewrite compute_outside by assumption.
    exact (compute_pd_returns self (err cursor target) dt Hdt Hms). }
  split; [|split].
  - intros out self' Hret.
    destruct (Rlt_dec (norm (err cursor target)) (dead_zone self)) as [Hin | Hout].
    + rewrite compute_inside in Hret by assumption.
      injection Hret as <- _. rewrite norm_zero. assumption.
    + assert (Hdz : dead_zone self <= norm (err cursor target)) by lra.
      destruct (Req_dec_T dt 0) as [-> | Hdt].
      * rewrite compute_outside, compute_pd_dt_zero in Hret by assumption.
        discriminate.
      * rewrite (Hpd Hdt Hdz) in Hret. injection Hret as <- _.
        now apply norm_clamp.
  - intros Hdt.
    destruct (Rlt_dec (norm (err cursor target)) (dead_zone self)) as [Hin | Hout].
    + rewrite compute_inside by assumption. eauto.
    + rewrite Hpd by lra. eauto.
  - intros Hdt Hdz Hgt sm k.
    assert (Hpos : 0 < norm sm) by (subst sm; lra).
    assert (Hk : 0 <= k).
    { apply Rmult_le_pos; [assumption|]. left. now apply Rinv_0_lt_compat. }
    assert (Hcl : clamp (max_speed self) sm = scaled k sm).
    { unfold clamp. destruct (Rlt_dec _ _); [reflexivity|]. subst sm. lra. }
    split; [exact Hk|]. split.
    { intros H. apply Rmult_lt_0_compat; [assumption|].
      now apply Rinv_0_lt_compat. }
    split.
    { rewrite norm_scaled by assumption. unfold k. field. lra. }
    rewrite (Hpd Hdt Hdz). fold sm. rewrite Hcl.
    split; reflexivity.
Qed.

Lemma compute_speed_clamped_witness :
  0 <= max_speed (init 1 0 1 0 30) /\
  (1 <> 0 /\
   dead_zone (init 1 0 1 0 30) <= norm (err (0, 0) (100, 0)) /\
   max_speed (init 1 0 1 0 30) <
     norm (smoothed (init 1 0 1 0 30) (err (0, 0) (100, 0)) 1)) /\
  norm (scaled (30 / norm (smoothed (init 1 0 1 0 30) (err (0, 0) (100, 0)) 1))
               (smoothed (init 1 0 1 0 30) (err (0, 0) (100, 0)) 1)) = 30.
Proof.
  assert (H0 : 0 <= max_speed (init 1 0 1 0 30)) by (simpl; lra).
  assert (H1 : (1 <> 0)%R) by lra.
  assert (H2 : dead_zone (init 1 0 1 0 30) <= norm (err (0, 0) (100, 0)))
    by (apply norm_nonneg).
  assert (H3 : max_speed (init 1 0 1 0 30) <
               norm (smoothed (init 1 0 1 0 30) (err (0, 0) (100, 0)) 1)).
  { eapply Rlt_le_trans; [|apply norm_ge_fst]. simpl. lra. }
  split; [exact H0|]. split; [auto|].
  exact (proj1 (proj2 (proj2
    (proj2 (proj2 (compute_speed_clamped (init 1 0 1 0 30) (0, 0) (100, 0) 1 H0))
       H1 H2 H3)))).
Defined.

(** C5.  On a fresh controller with kp 0.15, kd 0.05, alpha 0.85,
    dead zone 5 and max speed 30, [compute] with cursor (0, 0), target
    (100, 0) and dt 1 returns (17, 0); the same call repeated on the same
    controller returns (15.3, 0): the derivative term is then zero and the
    smoothing blends 0.85 * 15 with 0.15 * 17. *)
Theorem compute_two_ticks :
  let c0 := init (15 / 100) (5 / 100) (85 / 100) 5 30 in
  let c1 := with_history c0 (100, 0) (17, 0) in
  let c2 := with_history c0 (100, 0) (153 / 10, 0) in
  compute (0, 0) (100, 0) 1 c0 = (Py.Returned (17, 0), c1) /\
  compute (0, 0) (100, 0) 1 c1 = (Py.Returned (153 / 10, 0), c2) /\
  kd c1 * (fst (err (0, 0) (100, 0)) - prev_error_x c1) / 1 = 0 /\
  85 / 100 * 15 + (1 - 85 / 100) * 17 = 153 / 10.
Proof.
  intros c0 c1 c2.
  assert (He : err (0, 0) (100, 0) = (100, 0))
    by (unfold err; simpl; f_equal; ring).
  assert (Hdz : 5 <= norm (err (0, 0) (100, 0))).
  { rewrite He. eapply Rle_trans; [|apply norm_ge_fst]. simpl. lra. }
  split; [|split; [|split]].
  - rewrite (compute_unclamped c0 (0, 0) (100, 0) 1 (17, 0)).
    + now rewrite He.
    + lra.
    + simpl; lra.
    + exact Hdz.
    + rewrite He. unfold smoothed; simpl. f_equal; field.
    + rewrite norm_axis_x by lra. simpl. lra.
  - rewrite (compute_unclamped c1 (0, 0) (100, 0) 1 (153 / 10, 0)).
    + now rewrite He.
    + lra.
    + simpl; lra.
    + exact Hdz.
    + rewrite He. unfold smoothed; simpl. f_equal; field.
    + rewrite norm_axis_x by lra. simpl. lra.
  - rewrite He. simpl. field.
  - field.
Qed.

(** C7.  [reset] sets the previous error and the previous output to
    (0, 0): it leaves the controller as the constructor builds it from the
    same gains, so [compute] after [reset] gives, for every input, the
    outcome and the state that it gives on a freshly constructed
    controller with these gains. *)
Theorem reset_then_compute (self : AimController)
    (cursor target : R * R) (dt : R) :
  let fresh :=
    init (kp self) (kd self) (alpha self) (dead_zone self) (max_speed self) in
  reset self = (Py.Returned tt, with_history self (0, 0) (0, 0)) /\
  snd (reset self) = fresh /\
  compute cursor target dt (snd (reset self)) = compute cursor target dt fresh.
Proof. repeat split. Qed.

(** C8.  [update_params] sets each supplied parameter to the supplied
    value and leaves each parameter that is not supplied, and the
    controller's history, unchanged; it checks no bounds: every value is
    taken as given, for example a negative [max_speed] or an [alpha]
    of 2. *)
Theorem update_params_partial (self : AimController)
    (new_kp new_kd new_alpha new_dead_zone new_max_speed : option R) :
  update_params new_kp new_kd new_alpha new_dead_zone new_max_speed self =
  (Py.Returned tt,
   mkAimController
     (or_keep new_kp (kp self)) (or_keep new_kd (kd self))
     (or_keep new_alpha (alpha self))
     (or_keep new_dead_zone (dead_zone self))
     (or_keep new_max_speed (max_speed self))
     (prev_error_x self) (prev_error_y self)
     (prev_output_x self) (prev_output_y self)) /\
  update_params None None (Some 2) None (Some (-1)) self =
  (Py.Returned tt,
   mkAimController (kp self) (kd self) 2 (dead_zone self) (-1)
     (prev_error_x self) (prev_error_y self)
     (prev_output_x self) (prev_output_y self)).
Proof.
  split; [|reflexivity].
  destruct self, new_kp, new_kd, new_alpha, new_dead_zone, new_max_speed;
    reflexivity.
Qed.

(** C10.  Whatever the state and the input, and whether it returns or
    raises, [compute] leaves the five configuration fields [kp], [kd],
    [alpha], [dead_zone] and [max_speed] as they were: only the previous
    error and the previous output can change.  [reset] leaves them as
    they were too. *)
Theorem compute_keeps_config (self : AimController)
    (cursor target : R * R) (dt : R) :
  let self' := snd (compute cursor target dt self) in
  (kp self' = kp self /\ kd self' = kd self /\ alpha self' = alpha self /\
   dead_zone self' = dead_zone self /\ max_speed self' = max_speed self) /\
  self' = with_history self (prev_error_x self', prev_error_y self')
                       (prev_output_x self', prev_output_y self') /\
  snd (reset self) = with_history self (0, 0) (0, 0).
Proof.
  assert (H : snd (compute cursor target dt self) =
              with_history self
                (prev_error_x (snd (compute cursor target dt self)),
                 prev_error_y (snd (compute cursor target dt self)))
                (prev_output_x (snd (compute cursor target dt self)),
                 prev_output_y (snd (compute cursor target dt self)))).
  { destruct cursor as [cx cy], target as [tx ty], self.
    unfold compute, compute_pd, bind, get, eval, assign, ret, Py.div; simpl.
    destruct (Py.ltb _ _); [reflexivity|].
    destruct (Req_dec_T dt 0); [reflexivity|]. simpl.
    destruct (Py.gtb _ _); [|reflexivity]. simpl.
    destruct (Req_dec_T _ 0); reflexivity. }
  cbv zeta. split; [|split; [exact H | reflexivity]].
  rewrite H. repeat split.
Qed.

End ControllerTheorems.

(** ** Coordinate scaling *)

Section CoordinateTheorems.
Import Coordinate.

Lemma scale_coordinates_returns (x y : R) (from_size to_size : Z * Z) :
  fst from_size <> 0%Z -> snd from_size <> 0%Z ->
  scale_coordinates x y from_size to_size =
  Py.Returned (x * (IZR (fst to_size) / IZR (fst from_size)),
               y * (IZR (snd to_size) / IZR (snd from_size))).
Proof.
  intros Hx Hy. unfold scale_coordinates.
  now rewrite !div_nonzero by (now apply not_0_IZR).
Qed.

(** C9.  For sizes whose widths and heights are all nonzero,
    [map_to_screen] returns a point, and [map_to_model] with the same
    sizes maps that point back to exactly the (x, y) it came from. *)
Theorem map_to_model_inverts_map_to_screen (x y : R)
    (model_size screen_size : Z * Z) :
  fst model_size <> 0%Z -> snd model_size <> 0%Z ->
  fst screen_size <> 0%Z -> snd screen_size <> 0%Z ->
  exists sx sy,
    map_to_screen x y model_size screen_size = Py.Returned (sx, sy) /\
    map_to_model sx sy screen_size model_size = Py.Returned (x, y).
Proof.
  intros Hmx Hmy Hsx Hsy.
  unfold map_to_screen, map_to_model.
  rewrite scale_coordinates_returns by assumption.
  eexists; eexists; split; [reflexivity|].
  rewrite scale_coordinates_returns by assumption.
  apply not_0_IZR in Hmx, Hmy, Hsx, Hsy.
  f_equal. f_equal; field; auto.
Qed.

Lemma map_to_model_inverts_map_to_screen_witness :
  exists sx sy,
    map_to_screen 320 180 default_model_size default_screen_size =
      Py.Returned (sx, sy) /\
    map_to_model sx sy default_screen_size default_model_size =
      Py.Returned (320, 180).
Proof.
  apply (map_to_model_inverts_map_to_screen 320 180
           default_model_size default_screen_size);
    simpl; lia.
Defined.

End CoordinateTheorems.

(** * Further properties of the embedded code *)

(** ** Scaling of boxes and coordinates *)

Section ScalingTheorems.
Import Detector Coordinate.

(** X1.  [to_screen_coords] scales the derived geometry with the box: the
    center of the scaled box is the scaled center, its width and height
    are the scaled width and height, and score and class are kept. *)
Theorem to_screen_coords_geometry (d : Detection) (sx sy : R) :
  center_x (to_screen_coords d sx sy) = center_x d * sx /\
  center_y (to_screen_coords d sx sy) = center_y d * sy /\
  width (to_screen_coords d sx sy) = width d * sx /\
  height (to_screen_coords d sx sy) = height d * sy /\
  score (to_screen_coords d sx sy) = score d /\
  class_id (to_screen_coords d sx sy) = class_id d.
Proof.
  unfold center_x, center_y, width, height, to_screen_coords; simpl.
  repeat split; field.
Qed.

Lemma leb_scale (a b k : R) : 0 < k -> Py.leb (a * k) (b * k) = Py.leb a b.
Proof.
  intros Hk. destruct (Py.leb a b) eqn:E.
  - apply leb_true in E. apply leb_true. nra.
  - apply leb_false in E. apply leb_false. nra.
Qed.

(** X2.  With positive scale factors, a point lies in a box exactly when
    the scaled point lies in the scaled box: [_point_in_box] gives the
    same answer before and after [to_screen_coords]. *)
Theorem to_screen_coords_keeps_containment (d : Detection) (sx sy x y : R) :
  0 < sx -> 0 < sy ->
  Selector._point_in_box (x * sx) (y * sy) (to_screen_coords d sx sy) =
  Selector._point_in_box x y d.
Proof.
  intros Hx Hy. unfold Selector._point_in_box, to_screen_coords; simpl.
  now rewrite !leb_scale by assumption.
Qed.

Lemma to_screen_coords_keeps_containment_witness :
  0 < 3 /\ 0 < 3 /\
  Selector._point_in_box (320 * 3) (180 * 3)
    (to_screen_coords Spec.box_a 3 3) =
  Selector._point_in_box 320 180 Spec.box_a.
Proof.
  assert (H : 0 < 3) by lra.
  repeat split; try exact H.
  exact (to_screen_coords_keeps_containment Spec.box_a 3 3 320 180 H H).
Defined.

(** X3.  [scale_coordinates] raises [ZeroDivisionError] exactly when the
    width or the height of [from_size] is zero, whatever the point and
    [to_size]; [get_scale_factors] raises exactly when the width or the
    height of [model_size] is zero. *)
Theorem scale_coordinates_raises_iff (x y : R) (from_size to_size : Z * Z) :
  (scale_coordinates x y from_size to_size = Py.Raised Py.ZeroDivisionError
   <-> (fst from_size = 0 \/ snd from_size = 0)%Z) /\
  (get_scale_factors from_size to_size = Py.Raised Py.ZeroDivisionError
   <-> (fst from_size = 0 \/ snd from_size = 0)%Z).
Proof.
  unfold scale_coordinates, get_scale_factors, Py.div.
  destruct from_size as [fw fh], to_size as [tw th]; simpl.
  destruct (Req_dec_T (IZR fw) 0) as [Ew | Ew];
    destruct (Req_dec_T (IZR fh) 0) as [Eh | Eh];
    split; split; intros H; try reflexivity; try discriminate;
    try (left; now apply eq_IZR_R0); try (right; now apply eq_IZR_R0);
    destruct H as [-> | ->]; contradiction.
Qed.

(** X4.  Rescaling composes: for sizes [a] and [b] without a zero side,
    scaling a point from [a] to [b] and the result from [b] to [c] gives
    what scaling it from [a] to [c] gives. *)
Theorem scale_coordinates_compose (x y : R) (a b c : Z * Z) :
  fst a <> 0%Z -> snd a <> 0%Z -> fst b <> 0%Z -> snd b <> 0%Z ->
  exists p,
    scale_coordinates x y a b = Py.Returned p /\
    scale_coordinates (fst p) (snd p) b c = scale_coordinates x y a c.
Proof.
  intros Hax Hay Hbx Hby.
  rewrite !scale_coordinates_returns by assumption.
  eexists; split; [reflexivity|]. simpl.
  rewrite scale_coordinates_returns by assumption.
  apply not_0_IZR in Hax, Hay, Hbx, Hby.
  f_equal. f_equal; field; auto.
Qed.

Lemma scale_coordinates_compose_witness :
  exists p,
    scale_coordinates 320 180 default_model_size default_screen_size =
      Py.Returned p /\
    scale_coordinates (fst p) (snd p) default_screen_size (3840, 2160)%Z =
    scale_coordinates 320 180 default_model_size (3840, 2160)%Z.
Proof.
  apply (scale_coordinates_compose 320 180 default_model_size
           default_screen_size (3840, 2160)%Z); simpl; lia.
Defined.

(** X5.  For a model size without a zero side, the box that
    [to_screen_coords] builds from the factors of [get_scale_factors] has
    the corners and the center that [map_to_screen] gives for the corners
    and the center of the model box. *)
Theorem to_screen_coords_matches_map_to_screen (d : Detection)
    (model_size screen_size : Z * Z) :
  fst model_size <> 0%Z -> snd model_size <> 0%Z ->
  exists sx sy,
    get_scale_factors model_size screen_size = Py.Returned (sx, sy) /\
    let d' := to_screen_coords d sx sy in
    map_to_screen (x1 d) (y1 d) model_size screen_size =
      Py.Returned (x1 d', y1 d') /\
    map_to_screen (x2 d) (y2 d) model_size screen_size =
      Py.Returned (x2 d', y2 d') /\
    map_to_screen (center_x d) (center_y d) model_size screen_size =
      Py.Returned (center_x d', center_y d').
Proof.
  intros Hx Hy. unfold map_to_screen.
  rewrite !scale_coordinates_returns by assumption.
  unfold get_scale_factors.
  rewrite !div_nonzero by (now apply not_0_IZR).
  eexists; eexists; split; [reflexivity|].
  cbv zeta. unfold to_screen_coords, center_x, center_y; simpl.
  repeat split; f_equal; f_equal; field; now apply not_0_IZR.
Qed.

Lemma to_screen_coords_matches_map_to_screen_witness :
  exists sx sy,
    get_scale_factors default_model_size default_screen_size =
      Py.Returned (sx, sy) /\
    let d' := to_screen_coords Spec.box_a sx sy in
    map_to_screen (x1 Spec.box_a) (y1 Spec.box_a)
      default_model_size default_screen_size = Py.Returned (x1 d', y1 d') /\
    map_to_screen (x2 Spec.box_a) (y2 Spec.box_a)
      default_model_size default_screen_size = Py.Returned (x2 d', y2 d') /\
    map_to_screen (center_x Spec.box_a) (center_y Spec.box_a)
      default_model_size default_screen_size =
      Py.Returned (center_x d', center_y d').
Proof.
  apply (to_screen_coords_matches_map_to_screen Spec.box_a
           default_model_size default_screen_size); simpl; lia.
Defined.

(** X6.  The scale factors that the [ScreenCapture] constructor stores
    are those of [get_scale_factors] for the same target and screen
    sizes, and the constructor raises exactly when [get_scale_factors]
    does. *)
Theorem capture_scale_factors_agree (screen_width screen_height : Z)
    (target_size : Z * Z) :
  match Capture.init screen_width screen_height target_size with
  | Py.Returned c =>
      get_scale_factors target_size (screen_width, screen_height) =
      Py.Returned (Capture.get_scale_factors c)
  | Py.Raised e =>
      get_scale_factors target_size (screen_width, screen_height) =
      Py.Raised e
  end.
Proof.
  unfold Capture.init, get_scale_factors; simpl.
  destruct (Py.div (IZR screen_width) _); [|reflexivity].
  destruct (Py.div (IZR screen_height) _); reflexivity.
Qed.

End ScalingTheorems.

(** ** Target selector: distance, stored state, order of the input *)

Section SelectorMore.
Import Detector Selector Spec.

Lemma sumsq_nonneg (a b : R) : 0 <= a ^ 2 + b ^ 2.
Proof. pose proof (pow2_ge_0 a). pose proof (pow2_ge_0 b). lra. Qed.

Lemma sumsq_zero (a b : R) : a ^ 2 + b ^ 2 = 0 -> a = 0 /\ b = 0.
Proof. rewrite <- !Rsqr_pow2. apply Rplus_sqr_eq_0. Qed.

Lemma dot_le_norms (u1 u2 v1 v2 : R) :
  u1 * v1 + u2 * v2 <= sqrt (u1 ^ 2 + u2 ^ 2) * sqrt (v1 ^ 2 + v2 ^ 2).
Proof.
  rewrite <- sqrt_mult by nra.
  destruct (Rle_dec (u1 * v1 + u2 * v2) 0) as [Hneg | Hpos].
  - pose proof (sqrt_pos ((u1 ^ 2 + u2 ^ 2) * (v1 ^ 2 + v2 ^ 2))). lra.
  - rewrite <- (sqrt_square (u1 * v1 + u2 * v2)) at 1 by lra.
    apply sqrt_le_1_alt.
    assert (0 <= (u1 * v2 - u2 * v1) ^ 2) by apply pow2_ge_0.
    nra.
Qed.

(** X7.  [calculate_distance] is a metric on points: it is never
    negative, it is symmetric, it is zero exactly between a point and
    itself, and it satisfies the triangle inequality. *)
Theorem calculate_distance_metric (p q r : R * R) :
  0 <= calculate_distance p q /\
  calculate_distance p q = calculate_distance q p /\
  (calculate_distance p q = 0 <-> p = q) /\
  calculate_distance p r <= calculate_distance p q + calculate_distance q r.
Proof.
  destruct p as [p1 p2], q as [q1 q2], r as [r1 r2].
  unfold calculate_distance; simpl fst; simpl snd.
  split; [apply sqrt_pos|]. split; [f_equal; ring|]. split.
  - split.
    + intros H. apply sqrt_eq_0 in H; [|apply sumsq_nonneg].
      apply sumsq_zero in H. destruct H. f_equal; lra.
    + intros [= -> ->]. replace ((q1 - q1) ^ 2 + (q2 - q2) ^ 2) with 0 by ring.
      apply sqrt_0.
  - set (A := sqrt ((p1 - q1) ^ 2 + (p2 - q2) ^ 2)).
    set (B := sqrt ((q1 - r1) ^ 2 + (q2 - r2) ^ 2)).
    assert (HA : 0 <= A) by apply sqrt_pos.
    assert (HB : 0 <= B) by apply sqrt_pos.
    assert (HA2 : A * A = (p1 - q1) ^ 2 + (p2 - q2) ^ 2)
      by (apply sqrt_sqrt, sumsq_nonneg).
    assert (HB2 : B * B = (q1 - r1) ^ 2 + (q2 - r2) ^ 2)
      by (apply sqrt_sqrt, sumsq_nonneg).
    pose proof (dot_le_norms (p1 - q1) (p2 - q2) (q1 - r1) (q2 - r2)) as Hdot.
    fold A B in Hdot.
    rewrite <- (sqrt_square (A + B)) by lra.
    apply sqrt_le_1_alt.
    replace ((p1 - r1) ^ 2 + (p2 - r2) ^ 2)
      with (A * A + B * B +
            2 * ((p1 - q1) * (q1 - r1) + (p2 - q2) * (q2 - r2)))
      by (rewrite HA2, HB2; ring).
    replace ((A + B) * (A + B)) with (A * A + B * B + 2 * (A * B)) by ring.
    lra.
Qed.

Lemma survivors_idempotent (anchor : R * R) (l : list Detection) :
  survivors anchor (survivors anchor l) = survivors anchor l.
Proof.
  unfold survivors. induction l as [|d l IH]; simpl; [reflexivity|].
  destruct (negb _) eqn:E; simpl; [rewrite E, IH; reflexivity | exact IH].
Qed.

(** The target that [select] returns, from the survivors alone. *)
Lemma select_target_spec self detections cursor :
  match fst (select self detections cursor) with
  | Some b =>
      In b (survivors (SCREEN_CENTER self) detections) /\
      forall x, In x (survivors (SCREEN_CENTER self) detections) ->
                center_distance cursor b <= center_distance cursor x
  | None => survivors (SCREEN_CENTER self) detections = []
  end.
Proof.
  rewrite select_unfold. cbv zeta. cbn [fst].
  pose proof (scan_fold_inv cursor (survivors (SCREEN_CENTER self) detections)
                (Py.inf, None) [] eq_refl) as Hinv.
  rewrite app_nil_l in Hinv.
  destruct (survivors (SCREEN_CENTER self) detections) as [|k ks] eqn:Ek;
    [reflexivity|].
  destruct (fold_left _ (k :: ks) _) as [[|m] [b|]]; simpl in Hinv;
    try contradiction; try discriminate.
  cbn [snd]. destruct Hinv as [_ Hmin]. split.
  - destruct Hmin as (l1 & l2 & -> & _). apply in_or_app. right. now left.
  - intros x. now apply first_min_le.
Qed.

(** X8.  After [select], the stored current target is the returned
    target and the anchor is unchanged; every stored candidate is a
    detection of the call that does not contain the anchor; a returned
    box is one of the stored candidates, and no target is returned
    exactly when no candidate is stored. *)
Theorem select_stores_result (self : TargetSelector)
    (detections : list Detection) (cursor : R * R) :
  let target := fst (select self detections cursor) in
  let self' := snd (select self detections cursor) in
  get_current_target self' = target /\
  SCREEN_CENTER self' = SCREEN_CENTER self /\
  Forall (fun c => In c detections /\ ~ contains c (SCREEN_CENTER self))
         (get_candidates self') /\
  match target with
  | Some b => In b (get_candidates self')
  | None => get_candidates self' = []
  end.
Proof.
  cbv zeta. pose proof (select_target_spec self detections cursor) as Ht.
  rewrite select_unfold in *. cbv zeta in *. cbn [fst snd] in *.
  unfold get_current_target, get_candidates; cbn [current_target candidates
    SCREEN_CENTER].
  split; [reflexivity|]. split; [reflexivity|]. split.
  - apply Forall_forall. intros c Hc. now apply survivors_In.
  - destruct (match survivors _ _ with [] => None | _ => _ end);
      [apply Ht | exact Ht].
Qed.

(** X9.  [select] does not read what earlier calls stored: two selectors
    with the same anchor return the same target and are left in the same
    state, whatever candidates and current target they held. *)
Theorem select_ignores_stored_state (s1 s2 : TargetSelector)
    (detections : list Detection) (cursor : R * R) :
  SCREEN_CENTER s1 = SCREEN_CENTER s2 ->
  select s1 detections cursor = select s2 detections cursor.
Proof. intros H. rewrite !select_unfold, H. reflexivity. Qed.

Lemma select_ignores_stored_state_witness :
  SCREEN_CENTER init =
    SCREEN_CENTER (mkTargetSelector (960, 540) [box_a] (Some box_a)) /\
  select init [box_b; box_self] (0, 0) =
  select (mkTargetSelector (960, 540) [box_a] (Some box_a))
         [box_b; box_self] (0, 0).
Proof.
  split; [reflexivity|].
  exact (select_ignores_stored_state init
           (mkTargetSelector (960, 540) [box_a] (Some box_a))
           [box_b; box_self] (0, 0) eq_refl).
Defined.

(** X10.  Calling [select] again on the candidates it stored, with the
    same cursor, returns the same target and stores the same state: the
    excluded boxes have no influence on the choice. *)
Theorem select_again_on_candidates (self : TargetSelector)
    (detections : list Detection) (cursor : R * R) :
  select self (get_candidates (snd (select self detections cursor))) cursor =
  select self detections cursor.
Proof.
  rewrite !select_unfold. cbv zeta. cbn [snd get_candidates candidates].
  now rewrite survivors_idempotent.
Qed.

Lemma survivors_Permutation (anchor : R * R) (l l' : list Detection) :
  Permutation l l' -> Permutation (survivors anchor l) (survivors anchor l').
Proof.
  unfold survivors. induction 1; simpl.
  - constructor.
  - destruct (negb _); [now constructor | assumption].
  - destruct (negb _), (negb _); try apply Permutation_refl. apply perm_swap.
  - eapply Permutation_trans; eassumption.
Qed.

(** X11.  Reordering the detections can change the returned box only
    among equally near ones: for two lists that are permutations of each
    other, [select] returns no target for both, or returns boxes at the
    same center distance from the cursor. *)
Theorem select_permutation_distance (self : TargetSelector)
    (detections detections' : list Detection) (cursor : R * R) :
  Permutation detections detections' ->
  match fst (select self detections cursor),
        fst (select self detections' cursor) with
  | Some b, Some b' => center_distance cursor b = center_distance cursor b'
  | None, None => True
  | _, _ => False
  end.
Proof.
  intros Hp.
  apply (survivors_Permutation (SCREEN_CENTER self)) in Hp.
  pose proof (select_target_spec self detections cursor) as H1.
  pose proof (select_target_spec self detections' cursor) as H2.
  destruct (fst (select self detections cursor)) as [b|],
           (fst (select self detections' cursor)) as [b'|].
  - destruct H1 as [Hb H1], H2 as [Hb' H2].
    apply Rle_antisym.
    + apply H1. eapply Permutation_in; [apply Permutation_sym|]; eassumption.
    + apply H2. eapply Permutation_in; eassumption.
  - destruct H1 as [Hb _]. rewrite H2 in Hp.
    apply Permutation_sym, Permutation_nil in Hp. rewrite Hp in Hb.
    destruct Hb.
  - destruct H2 as [Hb' _]. rewrite H1 in Hp.
    apply Permutation_nil in Hp. rewrite Hp in Hb'. destruct Hb'.
  - exact I.
Qed.

Lemma select_permutation_distance_witness :
  Permutation [box_ne; box_self; box_sw] [box_sw; box_ne; box_self] /\
  match fst (select init [box_ne; box_self; box_sw] (0, 0)),
        fst (select init [box_sw; box_ne; box_self] (0, 0)) with
  | Some b, Some b' => center_distance (0, 0) b = center_distance (0, 0) b'
  | None, None => True
  | _, _ => False
  end.
Proof.
  assert (H : Permutation [box_ne; box_self; box_sw]
                          [box_sw; box_ne; box_self]).
  { apply Permutation_trans with [box_ne; box_sw; box_self].
    - apply perm_skip, perm_swap.
    - apply perm_swap. }
  split; [exact H|].
  exact (select_permutation_distance init _ _ (0, 0) H).
Defined.

End SelectorMore.

(** ** Aim controller: errors, unchecked gains, history *)

Section ControllerMore.
Import Controller Spec Calls.

Lemma norm_scaled_abs (k : R) (v : R * R) :
  norm (scaled k v) = Rabs k * norm v.
Proof.
  unfold norm, scaled; simpl.
  replace (fst v * k * (fst v * k * 1) + snd v * k * (snd v * k * 1))
    with (Rsqr k * (fst v * (fst v * 1) + snd v * (snd v * 1)))
    by (unfold Rsqr; ring).
  rewrite sqrt_mult_alt by apply Rle_0_sqr.
  now rewrite sqrt_Rsqr_abs.
Qed.

(** Every path of [compute], by the tests it makes. *)
Lemma compute_cases (self : AimController) (cursor target : R * R) (dt : R) :
  compute cursor target dt self =
  let e := err cursor target in
  if Rlt_dec (norm e) (dead_zone self) then
    (Py.Returned (0, 0), with_history self e (prev_output self))
  else if Req_dec_T dt 0 then (Py.Raised Py.ZeroDivisionError, self)
  else
    let sm := smoothed self e dt in
    if Rlt_dec (max_speed self) (norm sm) then
      if Req_dec_T (norm sm) 0 then (Py.Raised Py.ZeroDivisionError, self)
      else (Py.Returned (scaled (max_speed self / norm sm) sm),
            with_history self e (scaled (max_speed self / norm sm) sm))
    else (Py.Returned sm, with_history self e sm).
Proof.
  cbv zeta.
  destruct (Rlt_dec (norm (err cursor target)) (dead_zone self)) as [Hin | Hout].
  - now apply compute_inside.
  - rewrite compute_outside by lra.
    destruct (Req_dec_T dt 0) as [-> | Hdt]; [apply compute_pd_dt_zero|].
    destruct cursor as [cx cy], target as [tx ty].
    unfold compute_pd, bind, get, eval, assign, ret, err; simpl.
    rewrite !(div_nonzero _ dt Hdt).
    unfold Py.gtb, Py.ltb, Py.div.
    fold (smoothed self (tx - cx, ty - cy) dt).
    change (sqrt _) with (norm (smoothed self (tx - cx, ty - cy) dt)).
    destruct (Rlt_dec (max_speed self) _); [|reflexivity].
    destruct (Req_dec_T _ 0); reflexivity.
Qed.

(** X12.  Outside the dead zone, [compute] with [dt = 0] raises
    [ZeroDivisionError] and leaves the controller as it was: neither the
    previous error nor the previous output is updated. *)
Theorem compute_zero_dt_raises (self : AimController)
    (cursor target : R * R) :
  dead_zone self <= norm (err cursor target) ->
  compute cursor target 0 self = (Py.Raised Py.ZeroDivisionError, self).
Proof.
  intros H. rewrite compute_cases. cbv zeta.
  destruct (Rlt_dec _ _); [lra|].
  destruct (Req_dec_T 0 0); [reflexivity | contradiction].
Qed.

Lemma compute_zero_dt_raises_witness :
  dead_zone init_default <= norm (err (0, 0) (100, 0)) /\
  compute (0, 0) (100, 0) 0 init_default =
  (Py.Raised Py.ZeroDivisionError, init_default).
Proof.
  assert (H : dead_zone init_default <= norm (err (0, 0) (100, 0))).
  { eapply Rle_trans; [|apply norm_ge_fst]. simpl. lra. }
  split; [exact H|].
  exact (compute_zero_dt_raises init_default (0, 0) (100, 0) H).
Defined.

(** X13.  A negative [max_speed] is not rejected: outside the dead zone
    and with [dt] not zero, [compute] then raises [ZeroDivisionError]
    when the smoothed signal is the zero vector, and otherwise returns
    the smoothed signal scaled by the negative factor
    [max_speed / |smoothed|], a vector of norm [- max_speed] that points
    away from the smoothed signal. *)
Theorem compute_negative_max_speed (self : AimController)
    (cursor target : R * R) (dt : R) :
  max_speed self < 0 -> dt <> 0 ->
  dead_zone self <= norm (err cursor target) ->
  let sm := smoothed self (err cursor target) dt in
  let k := max_speed self / norm sm in
  (norm sm = 0 ->
   compute cursor target dt self = (Py.Raised Py.ZeroDivisionError, self)) /\
  (norm sm <> 0 ->
   k < 0 /\
   norm (scaled k sm) = - max_speed self /\
   compute cursor target dt self =
   (Py.Returned (scaled k sm),
    with_history self (err cursor target) (scaled k sm))).
Proof.
  intros Hms Hdt Hdz sm k.
  pose proof (norm_nonneg sm) as Hnn.
  rewrite compute_cases. cbv zeta. fold sm.
  destruct (Rlt_dec _ (dead_zone self)); [lra|].
  destruct (Req_dec_T dt 0); [contradiction|].
  destruct (Rlt_dec (max_speed self) (norm sm)); [|lra].
  destruct (Req_dec_T (norm sm) 0) as [E | E]; split; intros H;
    try contradiction; try reflexivity.
  assert (Hpos : 0 < norm sm) by lra.
  assert (Hk : k < 0).
  { assert (0 < / norm sm) by now apply Rinv_0_lt_compat.
    unfold k, Rdiv. nra. }
  repeat split; [exact Hk|].
  rewrite norm_scaled_abs, Rabs_left by assumption.
  unfold k. field. lra.
Qed.

Lemma compute_negative_max_speed_witness :
  (max_speed (init 1 0 1 0 (-1)) < 0 /\ 1 <> 0 /\
   dead_zone (init 1 0 1 0 (-1)) <= norm (err (0, 0) (0, 0)) /\
   norm (smoothed (init 1 0 1 0 (-1)) (err (0, 0) (0, 0)) 1) = 0) /\
  compute (0, 0) (0, 0) 1 (init 1 0 1 0 (-1)) =
  (Py.Raised Py.ZeroDivisionError, init 1 0 1 0 (-1)).
Proof.
  assert (H0 : max_speed (init 1 0 1 0 (-1)) < 0) by (simpl; lra).
  assert (H1 : (1 <> 0)%R) by lra.
  assert (H2 : dead_zone (init 1 0 1 0 (-1)) <= norm (err (0, 0) (0, 0)))
    by apply norm_nonneg.
  assert (H3 : norm (smoothed (init 1 0 1 0 (-1)) (err (0, 0) (0, 0)) 1) = 0).
  { replace (smoothed (init 1 0 1 0 (-1)) (err (0, 0) (0, 0)) 1) with (0, 0)
      by (unfold smoothed, err; simpl; f_equal; field).
    apply norm_zero. }
  split; [auto|].
  exact (proj1 (compute_negative_max_speed (init 1 0 1 0 (-1)) (0, 0) (0, 0) 1
                  H0 H1 H2) H3).
Defined.

Lemma after_call_bounded (self : AimController) (c : call) :
  0 <= max_speed self ->
  norm (prev_output self) <= max_speed self ->
  max_speed (after_call self c) = max_speed self /\
  norm (prev_output (after_call self c)) <= max_speed self.
Proof.
  intros Hms Hprev. destruct c as [cursor target dt|]; simpl.
  - rewrite compute_cases. cbv zeta.
    destruct (Rlt_dec _ (dead_zone self)).
    { split; [reflexivity|]. simpl. destruct self; exact Hprev. }
    destruct (Req_dec_T dt 0); [now split|].
    set (sm := smoothed self (err cursor target) dt).
    destruct (Rlt_dec (max_speed self) (norm sm)) as [Hgt | Hle].
    + assert (Hpos : 0 < norm sm) by lra.
      destruct (Req_dec_T (norm sm) 0); [lra|].
      split; [reflexivity|]. cbn [snd].
      change (prev_output (with_history self (err cursor target)
                (scaled (max_speed self / norm sm) sm)))
        with (scaled (max_speed self / norm sm) sm).
      rewrite norm_scaled.
      * right. field. lra.
      * apply Rmult_le_pos; [assumption|]. left.
        now apply Rinv_0_lt_compat.
    + split; [reflexivity|]. cbn [snd].
      change (prev_output (with_history self (err cursor target) sm)) with
        (fst sm, snd sm).
      destruct sm. simpl in *. lra.
  - split; [reflexivity|].
    change (prev_output _) with (0, 0). now rewrite norm_zero.
Qed.

(** X14.  On a controller with [max_speed >= 0] whose stored previous
    output has norm at most [max_speed], every sequence of [compute] and
    [reset] calls, returning or raising, leaves [max_speed] unchanged and
    a stored previous output of norm at most [max_speed]; in particular
    from a freshly constructed controller. *)
Theorem stored_output_stays_bounded (self : AimController)
    (calls : list call) :
  0 <= max_speed self ->
  norm (prev_output self) <= max_speed self ->
  max_speed (after_calls calls self) = max_speed self /\
  norm (prev_output (after_calls calls self)) <= max_speed self.
Proof.
  revert self. unfold after_calls.
  induction calls as [|c calls IH]; intros self Hms Hprev; simpl.
  - now split.
  - destruct (after_call_bounded self c Hms Hprev) as [E Hb].
    destruct (IH (after_call self c)) as [E' Hb'].
    + now rewrite E.
    + now rewrite E.
    + rewrite E in E', Hb'. now split.
Qed.

Lemma stored_output_stays_bounded_witness :
  (0 <= max_speed init_default /\
   norm (prev_output init_default) <= max_speed init_default) /\
  norm (prev_output
          (after_calls [Compute (0, 0) (500, 300) 1; Reset;
                        Compute (10, 0) (500, 300) 0;
                        Compute (10, 20) (500, 300) 1] init_default))
  <= max_speed init_default.
Proof.
  assert (H0 : 0 <= max_speed init_default) by (simpl; lra).
  assert (H1 : norm (prev_output init_default) <= max_speed init_default).
  { change (prev_output init_default) with (0, 0). rewrite norm_zero.
    exact H0. }
  split; [auto|].
  exact (proj2 (stored_output_stays_bounded init_default _ H0 H1)).
Defined.

(** What [update_params] leaves, field by field. *)
Lemma update_params_state (self : AimController) (a b c d e : option R) :
  snd (update_params a b c d e self) =
  mkAimController
    (or_keep a (kp self)) (or_keep b (kd self)) (or_keep c (alpha self))
    (or_keep d (dead_zone self)) (or_keep e (max_speed self))
    (prev_error_x self) (prev_error_y self)
    (prev_output_x self) (prev_output_y self).
Proof. destruct self, a, b, c, d, e; reflexivity. Qed.

Lemma or_keep_or_else (later earlier : option R) (old : R) :
  or_keep later (or_keep earlier old) = or_keep (or_else later earlier) old.
Proof. destruct later, earlier; reflexivity. Qed.

(** X15.  Two [update_params] calls in a row act as one call in which
    each parameter takes the later value if the second call supplies it
    and else what the first call supplies; a call that supplies nothing
    changes nothing; and [update_params] and [reset] commute. *)
Theorem update_params_compose (self : AimController)
    (a1 b1 c1 d1 e1 a2 b2 c2 d2 e2 : option R) :
  snd (update_params a2 b2 c2 d2 e2 (snd (update_params a1 b1 c1 d1 e1 self)))
  = snd (update_params (or_else a2 a1) (or_else b2 b1) (or_else c2 c1)
           (or_else d2 d1) (or_else e2 e1) self) /\
  snd (update_params None None None None None self) = self /\
  snd (reset (snd (update_params a1 b1 c1 d1 e1 self))) =
  snd (update_params a1 b1 c1 d1 e1 (snd (reset self))).
Proof.
  split; [|split].
  - rewrite !update_params_state. cbn [kp kd alpha dead_zone max_speed
      prev_error_x prev_error_y prev_output_x prev_output_y].
    now rewrite !or_keep_or_else.
  - now destruct self.
  - rewrite !update_params_state. reflexivity.
Qed.

(** X16.  With [kd = 0] and [alpha = 1] the controller is memoryless:
    two controllers with these gains and the same [kp], [dead_zone] and
    [max_speed] give the same outcome for the same input, whatever
    previous error and previous output they hold. *)
Theorem compute_memoryless (s1 s2 : AimController)
    (cursor target : R * R) (dt : R) :
  kd s1 = 0 -> alpha s1 = 1 ->
  kp s2 = kp s1 /\ kd s2 = kd s1 /\ alpha s2 = alpha s1 /\
  dead_zone s2 = dead_zone s1 /\ max_speed s2 = max_speed s1 ->
  fst (compute cursor target dt s1) = fst (compute cursor target dt s2).
Proof.
  intros Hkd Ha (Ekp & Ekd & Eal & Edz & Ems).
  assert (Hsm : smoothed s1 (err cursor target) dt =
                smoothed s2 (err cursor target) dt).
  { unfold smoothed. rewrite Ekp, Ekd, Eal, Hkd, Ha. unfold Rdiv.
    f_equal; ring. }
  rewrite !compute_cases. cbv zeta. rewrite Edz, Ems, Hsm.
  destruct (Rlt_dec _ (dead_zone s1)); [reflexivity|].
  destruct (Req_dec_T dt 0); [reflexivity|].
  destruct (Rlt_dec (max_speed s1) _); [|reflexivity].
  destruct (Req_dec_T _ 0); reflexivity.
Qed.

Lemma compute_memoryless_witness :
  (kd (init 1 0 1 5 30) = 0 /\ alpha (init 1 0 1 5 30) = 1) /\
  fst (compute (0, 0) (100, 0) 1 (init 1 0 1 5 30)) =
  fst (compute (0, 0) (100, 0) 1
         (with_history (init 1 0 1 5 30) (7, 7) (3, 4))).
Proof.
  split; [split; reflexivity|].
  apply (compute_memoryless (init 1 0 1 5 30)
           (with_history (init 1 0 1 5 30) (7, 7) (3, 4)));
    repeat split; reflexivity.
Defined.

(** X17.  The first tick of a freshly constructed (or reset) controller
    moves straight toward the target: with [max_speed >= 0], [dt] not
    zero and a non-negative gain [g = alpha * (kp + kd / dt)], [compute]
    returns the error vector scaled by a factor between 0 and [g]. *)
Theorem first_tick_points_at_target (kp0 kd0 alpha0 dead_zone0 max_speed0 : R)
    (cursor target : R * R) (dt : R) :
  0 <= max_speed0 -> dt <> 0 -> 0 <= alpha0 * (kp0 + kd0 / dt) ->
  exists k self',
    0 <= k <= alpha0 * (kp0 + kd0 / dt) /\
    compute cursor target dt (init kp0 kd0 alpha0 dead_zone0 max_speed0) =
    (Py.Returned (scaled k (err cursor target)), self').
Proof.
  intros Hms Hdt Hg.
  set (self := init kp0 kd0 alpha0 dead_zone0 max_speed0).
  set (g := alpha0 * (kp0 + kd0 / dt)) in *.
  set (e := err cursor target).
  assert (Hsm : smoothed self e dt = scaled g e).
  { unfold smoothed, scaled, g, self; simpl. f_equal; field; assumption. }
  rewrite compute_cases. cbv zeta. fold e. rewrite Hsm.
  destruct (Rlt_dec _ (dead_zone self)).
  { exists 0. eexists. split; [lra|].
    unfold scaled. now rewrite !Rmult_0_r. }
  destruct (Req_dec_T dt 0); [contradiction|].
  change (max_speed self) with max_speed0.
  destruct (Rlt_dec max_speed0 (norm (scaled g e))) as [Hgt | Hle].
  - assert (Hpos : 0 < norm (scaled g e)) by lra.
    destruct (Req_dec_T _ 0); [lra|].
    assert (Hinv : 0 < / norm (scaled g e)) by now apply Rinv_0_lt_compat.
    set (r := max_speed0 / norm (scaled g e)).
    assert (Hr : 0 <= r <= 1).
    { unfold r, Rdiv. split; [nra|].
      apply Rmult_le_reg_r with (norm (scaled g e)); [assumption|].
      rewrite Rmult_assoc, Rinv_l by lra. lra. }
    exists (g * r). eexists. split; [nra|].
    f_equal. f_equal. unfold scaled; simpl. f_equal; ring.
  - exists g. eexists. split; [lra | reflexivity].
Qed.

Lemma first_tick_points_at_target_witness :
  (0 <= 30 /\ 1 <> 0 /\ 0 <= 85 / 100 * (15 / 100 + 5 / 100 / 1)) /\
  exists k self',
    0 <= k <= 85 / 100 * (15 / 100 + 5 / 100 / 1) /\
    compute (0, 0) (300, 400) 1 (init (15 / 100) (5 / 100) (85 / 100) 5 30) =
    (Py.Returned (scaled k (err (0, 0) (300, 400))), self').
Proof.
  assert (H0 : 0 <= 30) by lra.
  assert (H1 : (1 <> 0)%R) by lra.
  assert (H2 : 0 <= 85 / 100 * (15 / 100 + 5 / 100 / 1)) by lra.
  split; [auto|].
  exact (first_tick_points_at_target (15 / 100) (5 / 100) (85 / 100) 5 30
           (0, 0) (300, 400) 1 H0 H1 H2).
Defined.

End ControllerMore.

(** ** Mouse steps and the loop of the main program *)

Section MouseAndLoop.
Import Detector Controller Spec.

Lemma abs_le_inv (x a : R) : Rabs x <= a -> - a <= x <= a.
Proof. unfold Rabs. destruct (Rcase_abs x); lra. Qed.

Lemma round_nearest (x : R) : Rabs (IZR (Builtins.round x) - x) <= 1 / 2.
Proof.
  unfold Builtins.round. pose proof (Zfloor_bound x) as [Hl Hu].
  destruct (Rlt_dec _ _) as [H1 | H1].
  - apply Rabs_le. lra.
  - destruct (Rlt_dec _ _) as [H2 | H2].
    + rewrite plus_IZR. apply Rabs_le. lra.
    + destruct (Z.even _); [|rewrite plus_IZR]; apply Rabs_le; lra.
Qed.

Lemma round_small (x : R) : - (1 / 2) <= x <= 1 / 2 -> Builtins.round x = 0%Z.
Proof.
  intros [Hl Hu]. unfold Builtins.round.
  destruct (Rle_dec 0 x) as [Hpos | Hneg].
  - rewrite (Zfloor_eq 0 x) by (simpl; lra). simpl.
    destruct (Rlt_dec _ _); [reflexivity|].
    destruct (Rlt_dec _ _); [lra | reflexivity].
  - rewrite (Zfloor_eq (-1) x) by (simpl; lra). simpl.
    destruct (Rlt_dec _ _); [lra|].
    destruct (Rlt_dec _ _); reflexivity.
Qed.

Lemma round_integer (n : Z) : Builtins.round (IZR n) = n.
Proof.
  unfold Builtins.round. rewrite ZfloorZ.
  destruct (Rlt_dec _ _); [reflexivity | lra].
Qed.

(** X18.  [move_relative] hands the mouse the integer step nearest to the
    requested one: on each axis the step differs from the request by at
    most half a pixel, and an integer request is passed on unchanged. *)
Theorem move_relative_nearest (dx dy : R) (n m : Z) :
  Rabs (IZR (fst (MouseControl.move_relative dx dy)) - dx) <= 1 / 2 /\
  Rabs (IZR (snd (MouseControl.move_relative dx dy)) - dy) <= 1 / 2 /\
  MouseControl.move_relative (IZR n) (IZR m) = (n, m).
Proof.
  unfold MouseControl.move_relative; simpl.
  split; [apply round_nearest|]. split; [apply round_nearest|].
  now rewrite !round_integer.
Qed.

(** X19.  A requested step of at most half a pixel on both axes, the
    half included, does not move the mouse: [move_relative] hands the
    device the step (0, 0). *)
Theorem move_relative_dead_band (dx dy : R) :
  Rabs dx <= 1 / 2 -> Rabs dy <= 1 / 2 ->
  MouseControl.move_relative dx dy = (0, 0)%Z.
Proof.
  intros Hx Hy. unfold MouseControl.move_relative.
  apply abs_le_inv in Hx, Hy.
  now rewrite !round_small by lra.
Qed.

Lemma move_relative_dead_band_witness :
  (Rabs (1 / 2) <= 1 / 2 /\ Rabs (- (1 / 2)) <= 1 / 2) /\
  MouseControl.move_relative (1 / 2) (- (1 / 2)) = (0, 0)%Z.
Proof.
  assert (H1 : Rabs (1 / 2) <= 1 / 2) by (apply Rabs_le; lra).
  assert (H2 : Rabs (- (1 / 2)) <= 1 / 2) by (apply Rabs_le; lra).
  split; [auto|].
  exact (move_relative_dead_band (1 / 2) (- (1 / 2)) H1 H2).
Defined.

Lemma int_truncates (x : R) :
  Rabs (IZR (Builtins.int x)) <= Rabs x /\ Rabs (x - IZR (Builtins.int x)) < 1.
Proof.
  unfold Builtins.int. destruct (Rle_dec 0 x) as [Hpos | Hneg].
  - pose proof (Zfloor_bound x) as [Hl Hu].
    assert (0 <= Zfloor x)%Z by (apply (Zfloor_lub 0); simpl; lra).
    assert (0 <= IZR (Zfloor x)) by now apply IZR_le.
    split; [rewrite !Rabs_pos_eq by lra; lra | apply Rabs_def1; lra].
  - unfold Zceil. pose proof (Zfloor_bound (- x)) as [Hl Hu].
    rewrite opp_IZR.
    assert (0 <= Zfloor (- x))%Z by (apply (Zfloor_lub 0); simpl; lra).
    assert (0 <= IZR (Zfloor (- x))) by now apply IZR_le.
    split.
    + rewrite Rabs_Ropp, Rabs_pos_eq by lra. rewrite Rabs_left by lra. lra.
    + apply Rabs_def1; lra.
Qed.

(** X20.  [move_absolute] truncates the requested position toward zero:
    on each axis the integer position is no farther from zero than the
    request and less than one pixel away from it. *)
Theorem move_absolute_truncates (x y : R) :
  (Rabs (IZR (fst (MouseControl.move_absolute x y))) <= Rabs x /\
   Rabs (x - IZR (fst (MouseControl.move_absolute x y))) < 1) /\
  (Rabs (IZR (snd (MouseControl.move_absolute x y))) <= Rabs y /\
   Rabs (y - IZR (snd (MouseControl.move_absolute x y))) < 1).
Proof. split; apply int_truncates. Qed.

Lemma abs_components_le_norm (v : R * R) :
  Rabs (fst v) <= norm v /\ Rabs (snd v) <= norm v.
Proof.
  unfold norm. rewrite <- !sqrt_Rsqr_abs, <- !Rsqr_pow2.
  pose proof (Rle_0_sqr (fst v)). pose proof (Rle_0_sqr (snd v)).
  split; apply sqrt_le_1_alt; lra.
Qed.

Lemma compute_returns_bounded (self : AimController)
    (cursor target : R * R) (dt : R) :
  0 <= max_speed self -> dt <> 0 ->
  exists out self',
    compute cursor target dt self = (Py.Returned out, self') /\
    norm out <= max_speed self.
Proof.
  intros Hms Hdt. rewrite compute_cases. cbv zeta.
  destruct (Rlt_dec _ (dead_zone self)).
  { eexists; eexists; split; [reflexivity|]. now rewrite norm_zero. }
  destruct (Req_dec_T dt 0); [contradiction|].
  set (sm := smoothed self (err cursor target) dt).
  destruct (Rlt_dec (max_speed self) (norm sm)) as [Hgt | Hle].
  - destruct (Req_dec_T (norm sm) 0); [lra|].
    eexists; eexists; split; [reflexivity|].
    rewrite norm_scaled.
    + right. field. lra.
    + apply Rmult_le_pos; [assumption|]. left.
      apply Rinv_0_lt_compat. lra.
  - eexists; eexists; split; [reflexivity | lra].
Qed.

(** X21.  A loop step with aim assist switched off, or with no detection
    that survives exclusion, hands no step to the mouse and leaves the
    controller untouched; the target of the frame is still selected. *)
Theorem run_step_idle (detections : list Detection) (cursor_pos : Z * Z)
    (self : Main.AimAssistSystem) :
  Main.aim_enabled self = false \/
  (forall det, In det detections ->
     contains (to_screen_coords det (Main.scale_x self) (Main.scale_y self))
              (Selector.SCREEN_CENTER (Main.selector self))) ->
  exists target,
    fst (Main.run_step detections cursor_pos self) =
      Py.Returned (target, None) /\
    Main.controller (snd (Main.run_step detections cursor_pos self)) =
      Main.controller self.
Proof.
  intros H. unfold Main.run_step.
  set (screen := map _ detections).
  set (cursor := (IZR (fst cursor_pos), IZR (snd cursor_pos))).
  pose proof (select_target_spec (Main.selector self) screen cursor) as Ht.
  destruct (Selector.select (Main.selector self) screen cursor)
    as [target sel'].
  cbn [fst] in Ht.
  destruct H as [Hoff | Hall].
  - rewrite Hoff. exists target. now split.
  - destruct target as [t|].
    + exfalso. destruct Ht as [Hin _]. apply survivors_In in Hin.
      destruct Hin as [Hin Hnot]. apply Hnot.
      apply in_map_iff in Hin. destruct Hin as (det & <- & Hdet).
      now apply Hall.
    + exists None. destruct (Main.aim_enabled self); now split.
Qed.

Lemma run_step_idle_witness :
  Main.aim_enabled
    (Main.mkAimAssistSystem false 3 3 Selector.init init_default) = false /\
  exists target,
    fst (Main.run_step [box_a] (0, 0)%Z
           (Main.mkAimAssistSystem false 3 3 Selector.init init_default)) =
      Py.Returned (target, None) /\
    Main.controller
      (snd (Main.run_step [box_a] (0, 0)%Z
              (Main.mkAimAssistSystem false 3 3 Selector.init init_default))) =
      Main.controller
        (Main.mkAimAssistSystem false 3 3 Selector.init init_default).
Proof.
  split; [reflexivity|].
  apply run_step_idle. left. reflexivity.
Defined.

(** X22.  With [max_speed >= 0] a loop step never raises.  A selected
    target is a detection of the frame scaled to the screen whose box
    does not contain the screen center, and a step handed to the mouse is
    at most [max_speed + 1/2] pixels on each axis; without a target no
    step is handed to the mouse. *)
Theorem run_step_bounded (detections : list Detection) (cursor_pos : Z * Z)
    (self : Main.AimAssistSystem) :
  0 <= max_speed (Main.controller self) ->
  exists target move self',
    Main.run_step detections cursor_pos self =
      (Py.Returned (target, move), self') /\
    match target with
    | Some t =>
        (exists det, In det detections /\
           t = to_screen_coords det (Main.scale_x self) (Main.scale_y self)) /\
        ~ contains t (Selector.SCREEN_CENTER (Main.selector self))
    | None => move = None
    end /\
    match move with
    | Some (mx, my) =>
        Rabs (IZR mx) <= max_speed (Main.controller self) + 1 / 2 /\
        Rabs (IZR my) <= max_speed (Main.controller self) + 1 / 2
    | None => True
    end.
Proof.
  intros Hms. unfold Main.run_step.
  set (screen := map _ detections).
  set (cursor := (IZR (fst cursor_pos), IZR (snd cursor_pos))).
  pose proof (select_target_spec (Main.selector self) screen cursor) as Ht.
  destruct (Selector.select (Main.selector self) screen cursor)
    as [target sel'].
  cbn [fst] in Ht.
  assert (Htarget :
    match target with
    | Some t =>
        (exists det, In det detections /\
           t = to_screen_coords det (Main.scale_x self) (Main.scale_y self)) /\
        ~ contains t (Selector.SCREEN_CENTER (Main.selector self))
    | None => True
    end).
  { destruct target as [t|]; [|exact I].
    destruct Ht as [Hin _]. apply survivors_In in Hin.
    destruct Hin as [Hin Hnot]. split; [|exact Hnot].
    apply in_map_iff in Hin. destruct Hin as (det & <- & Hdet). eauto. }
  destruct target as [t|].
  - destruct (Main.aim_enabled self).
    + destruct (compute_returns_bounded (Main.controller self) cursor
                  (center_x t, center_y t) 1 Hms ltac:(lra))
        as ([dx dy] & c' & -> & Hn).
      eexists; eexists; eexists. split; [reflexivity|].
      split; [exact Htarget|].
      unfold MouseControl.move_relative.
      destruct (abs_components_le_norm (dx, dy)) as [Hx Hy]. simpl in Hx, Hy.
      pose proof (round_nearest dx) as Rx. pose proof (round_nearest dy) as Ry.
      split.
      * replace (IZR (Builtins.round dx))
          with ((IZR (Builtins.round dx) - dx) + dx) by ring.
        eapply Rle_trans; [apply Rabs_triang|]. lra.
      * replace (IZR (Builtins.round dy))
          with ((IZR (Builtins.round dy) - dy) + dy) by ring.
        eapply Rle_trans; [apply Rabs_triang|]. lra.
    + eexists; eexists; eexists. split; [reflexivity|].
      split; [exact Htarget | exact I].
  - destruct (Main.aim_enabled self);
      (eexists; eexists; eexists; split; [reflexivity|]);
      split; [reflexivity | exact I | reflexivity | exact I].
Qed.

Lemma run_step_bounded_witness :
  0 <= max_speed
         (Main.controller
            (Main.mkAimAssistSystem true 3 3 Selector.init init_default)) /\
  exists target move self',
    Main.run_step [box_a; box_b] (0, 0)%Z
      (Main.mkAimAssistSystem true 3 3 Selector.init init_default) =
      (Py.Returned (target, move), self') /\
    match target with
    | Some t =>
        (exists det, In det [box_a; box_b] /\ t = to_screen_coords det 3 3) /\
        ~ contains t (960, 540)
    | None => move = None
    end /\
    match move with
    | Some (mx, my) =>
        Rabs (IZR mx) <= 30 + 1 / 2 /\ Rabs (IZR my) <= 30 + 1 / 2
    | None => True
    end.
Proof.
  assert (H : 0 <= max_speed
                     (Main.controller
                        (Main.mkAimAssistSystem true 3 3 Selector.init
                           init_default))) by (simpl; lra).
  split; [exact H|].
  exact (run_step_bounded [box_a; box_b] (0, 0)%Z
           (Main.mkAimAssistSystem true 3 3 Selector.init init_default) H).
Defined.

End MouseAndLoop.

(** ** Logger: frame counting and statistics *)

Section LoggerTheorems.
Import Logger.

(** X23.  An enabled logger whose [log_interval] is 0 raises
    [ZeroDivisionError] on [log], after it has counted the frame and
    without storing an entry; a disabled logger returns at once and
    changes nothing, whatever its [log_interval]. *)
Theorem log_zero_interval (now : string) (aim : bool) (count : Z)
    (inference latency rate : R) (tx ty : option R) (self : Logger) :
  (enabled self = true -> log_interval self = 0%Z ->
   log now aim count inference latency rate tx ty self =
   (Py.Raised Py.ZeroDivisionError,
    mkLogger (output_dir self) true 0 (frame_count self + 1) (entries self)))
  /\
  (enabled self = false ->
   log now aim count inference latency rate tx ty self =
   (Py.Returned tt, self)).
Proof.
  unfold log. split.
  - intros -> Hk. simpl. rewrite Hk. reflexivity.
  - intros ->. reflexivity.
Qed.

Lemma log_zero_interval_witness :
  (enabled (init "logs" true 0) = true /\
   log_interval (init "logs" true 0) = 0%Z /\
   log "t" true 2 20 40 30 None None (init "logs" true 0) =
   (Py.Raised Py.ZeroDivisionError, mkLogger "logs" true 0 1 [])) /\
  (enabled (init "logs" false 0) = false /\
   log "t" true 2 20 40 30 None None (init "logs" false 0) =
   (Py.Returned tt, init "logs" false 0)).
Proof.
  split; (split; [reflexivity|]).
  - split; [reflexivity|].
    exact (proj1 (log_zero_interval "t" true 2 20 40 30 None None
                    (init "logs" true 0)) eq_refl eq_refl).
  - exact (proj2 (log_zero_interval "t" true 2 20 40 30 None None
                    (init "logs" false 0)) eq_refl).
Defined.

Lemma next_frame_quotient (k n : Z) :
  (0 < k)%Z -> (0 <= n)%Z ->
  if Z.eqb (Z.modulo (n + 1) k) 0
  then ((n + 1) / k = n / k + 1 /\ k * (n / k + 1) = n + 1)%Z
  else ((n + 1) / k = n / k)%Z.
Proof.
  intros Hk Hn.
  pose proof (Z.div_mod n k ltac:(lia)) as E.
  pose proof (Z.mod_pos_bound n k Hk) as B.
  pose proof (Z.div_mod (n + 1) k ltac:(lia)) as E'.
  pose proof (Z.mod_pos_bound (n + 1) k Hk) as B'.
  destruct (Z.eqb_spec (Z.modulo (n + 1) k) 0) as [Hz | Hz].
  - rewrite Hz in E'.
    assert ((n + 1) / k = n / k + 1)%Z by nia.
    split; [assumption | nia].
  - nia.
Qed.

Lemma multiples_succ (k : Z) (m : nat) :
  multiples k (S m) = multiples k m ++ [(k * Z.of_nat (S m))%Z].
Proof.
  unfold multiples. rewrite seq_S, map_app. reflexivity.
Qed.

(** The invariant of an enabled logger with a positive interval [k]. *)
Lemma after_log_invariant (k : Z) (self : Logger) (c : log_call) :
  (0 < k)%Z ->
  enabled self = true -> log_interval self = k -> (0 <= frame_count self)%Z ->
  map frame_id (entries self) =
    multiples k (Z.to_nat (frame_count self / k)) ->
  enabled (after_log self c) = true /\
  log_interval (after_log self c) = k /\
  frame_count (after_log self c) = (frame_count self + 1)%Z /\
  map frame_id (entries (after_log self c)) =
    multiples k (Z.to_nat ((frame_count self + 1) / k)).
Proof.
  intros Hk Hen Hint Hfc Hent.
  unfold after_log, log, Builtins.modulo. rewrite Hen. simpl.
  rewrite Hint. destruct (Z.eqb_spec k 0) as [|_]; [lia|].
  pose proof (next_frame_quotient k (frame_count self) Hk Hfc) as Hq.
  destruct (Z.eqb ((frame_count self + 1) mod k) 0); simpl.
  - destruct Hq as [Hq Hmul]. repeat split.
    rewrite map_app, Hent, Hq. simpl.
    assert (0 <= frame_count self / k)%Z by (apply Z.div_pos; lia).
    rewrite Z2Nat.inj_add by lia. simpl Z.to_nat.
    rewrite Nat.add_1_r, multiples_succ. f_equal. f_equal.
    rewrite Nat2Z.inj_succ, Z2Nat.id by lia. lia.
  - repeat split. now rewrite Hq.
Qed.

(** X24.  A logger constructed enabled with [log_interval = k > 0] counts
    every [log] call and stores an entry on every [k]-th one: after [n]
    calls its frame count is [n] and the frame numbers of its entries
    are [k, 2k, ...] up to the largest multiple of [k] that is at most
    [n], in this order. *)
Theorem log_records_every_kth (dir : string) (k : Z)
    (calls : list log_call) :
  (0 < k)%Z ->
  let self' := after_logs calls (init dir true k) in
  let n := Z.of_nat (List.length calls) in
  frame_count self' = n /\
  map frame_id (entries self') = multiples k (Z.to_nat (n / k)).
Proof.
  intros Hk. cbv zeta.
  assert (Hgen : forall calls self,
    enabled self = true -> log_interval self = k ->
    (0 <= frame_count self)%Z ->
    map frame_id (entries self) =
      multiples k (Z.to_nat (frame_count self / k)) ->
    frame_count (after_logs calls self) =
      (frame_count self + Z.of_nat (List.length calls))%Z /\
    map frame_id (entries (after_logs calls self)) =
      multiples k
        (Z.to_nat ((frame_count self + Z.of_nat (List.length calls)) / k))).
  { clear calls. unfold after_logs.
    induction calls as [|c calls IH]; intros self Hen Hint Hfc Hent.
    - simpl. rewrite Z.add_0_r. now split.
    - destruct (after_log_invariant k self c Hk Hen Hint Hfc Hent)
        as (Hen' & Hint' & Hfc' & Hent').
      cbn [fold_left List.length].
      destruct (IH (after_log self c)) as [E1 E2]; try assumption.
      + lia.
      + now rewrite Hfc'.
      + rewrite Hfc' in E1, E2.
        replace (frame_count self + Z.of_nat (S (List.length calls)))%Z
          with (frame_count self + 1 + Z.of_nat (List.length calls))%Z by lia.
        now split. }
  destruct (Hgen calls (init dir true k)) as [E1 E2];
    try reflexivity; simpl; try lia.
  simpl in E1, E2. now split.
Qed.

Lemma log_records_every_kth_witness :
  (0 < 2)%Z /\
  let c := mkLogCall "t" true 1 20 40 30 None None in
  map frame_id (entries (after_logs [c; c; c; c; c] (init "logs" true 2))) =
  [2; 4]%Z.
Proof.
  assert (H : (0 < 2)%Z) by lia.
  split; [exact H|].
  exact (proj2 (log_records_every_kth "logs" 2
                  (let c := mkLogCall "t" true 1 20 40 30 None None in
                   [c; c; c; c; c]) H)).
Defined.

Lemma max_acc_le (l : list R) : forall x, x <= Builtins.max x l.
Proof.
  unfold Builtins.max. induction l as [|y l IH]; intros x; simpl; [lra|].
  unfold Py.gtb. destruct (Py.ltb x y) eqn:E.
  - apply ltb_true in E. eapply Rle_trans; [|apply IH]. lra.
  - apply IH.
Qed.

Lemma max_upper (l : list R) : forall x y,
  In y (x :: l) -> y <= Builtins.max x l.
Proof.
  induction l as [|z l IH]; intros x y Hy.
  - destruct Hy as [<- | []]. apply max_acc_le.
  - destruct Hy as [<- | Hy]; [apply max_acc_le|].
    unfold Builtins.max in *; simpl. unfold Py.gtb.
    destruct (Py.ltb x z) eqn:E.
    + apply IH. exact Hy.
    + apply ltb_false in E. destruct Hy as [<- | Hy].
      * eapply Rle_trans; [exact E | apply (max_acc_le l x)].
      * apply IH. now right.
Qed.

Lemma min_acc_le (l : list R) : forall x, Builtins.min x l <= x.
Proof.
  unfold Builtins.min. induction l as [|y l IH]; intros x; simpl; [lra|].
  destruct (Py.ltb y x) eqn:E.
  - apply ltb_true in E. eapply Rle_trans; [apply IH|]. lra.
  - apply IH.
Qed.

Lemma min_lower (l : list R) : forall x y,
  In y (x :: l) -> Builtins.min x l <= y.
Proof.
  induction l as [|z l IH]; intros x y Hy.
  - destruct Hy as [<- | []]. apply min_acc_le.
  - destruct Hy as [<- | Hy]; [apply min_acc_le|].
    unfold Builtins.min in *; simpl.
    destruct (Py.ltb z x) eqn:E.
    + apply IH. exact Hy.
    + apply ltb_false in E. destruct Hy as [<- | Hy].
      * eapply Rle_trans; [apply (min_acc_le l x) | exact E].
      * apply IH. now right.
Qed.

Lemma sum_between (m M : R) (l : list R) : forall a,
  (forall y, In y l -> m <= y <= M) ->
  a + INR (List.length l) * m <= fold_left Rplus l a <=
  a + INR (List.length l) * M.
Proof.
  induction l as [|y l IH]; intros a H.
  - simpl. lra.
  - cbn [fold_left List.length]. rewrite S_INR.
    destruct (H y (or_introl eq_refl)) as [Hm HM].
    destruct (IH (a + y) (fun z Hz => H z (or_intror Hz))) as [L U].
    split; lra.
Qed.

(** The average of a non-empty list lies between its [min] and [max]. *)
Lemma average_between (x : R) (l : list R) :
  exists avg,
    average (x :: l) = Py.Returned avg /\
    Builtins.min x l <= avg <= Builtins.max x l.
Proof.
  unfold average, Builtins.sum.
  assert (Hn : 0 < INR (List.length (x :: l))) by (apply lt_0_INR; simpl; lia).
  rewrite div_nonzero by lra.
  eexists; split; [reflexivity|].
  destruct (sum_between (Builtins.min x l) (Builtins.max x l) (x :: l) 0
              (fun y Hy => conj (min_lower l x y Hy) (max_upper l x y Hy)))
    as [L U].
  set (n := INR (List.length (x :: l))) in *.
  set (s := fold_left Rplus (x :: l) 0) in *.
  assert (Hinv : 0 < / n) by now apply Rinv_0_lt_compat.
  unfold Rdiv. split.
  - apply Rmult_le_reg_r with n; [assumption|].
    rewrite Rmult_assoc, Rinv_l by lra. lra.
  - apply Rmult_le_reg_r with n; [assumption|].
    rewrite Rmult_assoc, Rinv_l by lra. lra.
Qed.

(** X25.  [get_statistics] never raises.  Without entries it returns the
    empty dictionary; with entries it reports the frame count, the
    number of entries, and for the inference times and for the latencies
    an average that lies between the reported minimum and maximum. *)
Theorem get_statistics_bounds (self : Logger) :
  match entries self with
  | [] => get_statistics self = Py.Returned []
  | _ :: _ =>
      exists avg_i max_i min_i avg_l max_l min_l avg_f,
        get_statistics self =
        Py.Returned
          [("total_frames"%string, VInt (frame_count self));
           ("logged_entries"%string,
            VInt (Z.of_nat (List.length (entries self))));
           ("avg_inference_time_ms"%string, VFloat avg_i);
           ("max_inference_time_ms"%string, VFloat max_i);
           ("min_inference_time_ms"%string, VFloat min_i);
           ("avg_latency_ms"%string, VFloat avg_l);
           ("max_latency_ms"%string, VFloat max_l);
           ("min_latency_ms"%string, VFloat min_l);
           ("avg_fps"%string, VFloat avg_f)] /\
        min_i <= avg_i <= max_i /\ min_l <= avg_l <= max_l
  end.
Proof.
  unfold get_statistics. destruct (entries self) as [|e es]; [reflexivity|].
  cbn [map].
  destruct (average_between (inference_time_ms e) (map inference_time_ms es))
    as (ai & -> & Hi).
  destruct (average_between (total_latency_ms e) (map total_latency_ms es))
    as (al & -> & Hl).
  destruct (average_between (fps e) (map fps es)) as (af & -> & _).
  do 7 eexists. split; [reflexivity|]. split; assumption.
Qed.

End LoggerTheorems.

(** ** Overlay: the tolerance test on boxes *)

Section HudTheorems.
Import Detector.

Lemma same_detection_iff (d1 d2 : Detection) :
  Hud._is_same_detection d1 d2 = true <->
  Rabs (x1 d1 - x1 d2) < 1 /\ Rabs (y1 d1 - y1 d2) < 1 /\
  Rabs (x2 d1 - x2 d2) < 1 /\ Rabs (y2 d1 - y2 d2) < 1.
Proof.
  unfold Hud._is_same_detection.
  rewrite !andb_true_iff, !ltb_true. tauto.
Qed.

(** X26.  [_is_same_detection] is a tolerance test, not an equality: every
    box is the same as itself, whatever score and class the other copy
    carries; the test is symmetric; but it is not transitive. *)
Theorem is_same_detection_tolerance :
  (forall d s c,
     Hud._is_same_detection d
       (mkDetection (x1 d) (y1 d) (x2 d) (y2 d) s c) = true) /\
  (forall d1 d2,
     Hud._is_same_detection d1 d2 = Hud._is_same_detection d2 d1) /\
  (exists a b c,
     Hud._is_same_detection a b = true /\
     Hud._is_same_detection b c = true /\
     Hud._is_same_detection a c = false).
Proof.
  split; [|split].
  - intros d s c. apply same_detection_iff; simpl.
    replace (x1 d - x1 d) with 0 by ring. replace (y1 d - y1 d) with 0 by ring.
    replace (x2 d - x2 d) with 0 by ring. replace (y2 d - y2 d) with 0 by ring.
    rewrite Rabs_R0. repeat split; lra.
  - intros d1 d2. unfold Hud._is_same_detection.
    now rewrite (Rabs_minus_sym (x1 d1)), (Rabs_minus_sym (y1 d1)),
      (Rabs_minus_sym (x2 d1)), (Rabs_minus_sym (y2 d1)).
  - exists (mkDetection 0 0 10 10 1 0),
           (mkDetection (6 / 10) 0 10 10 1 0),
           (mkDetection (12 / 10) 0 10 10 1 0).
    split; [|split].
    + apply same_detection_iff; simpl.
      repeat split; apply Rabs_def1; lra.
    + apply same_detection_iff; simpl.
      repeat split; apply Rabs_def1; lra.
    + destruct (Hud._is_same_detection _ _) eqn:E; [|reflexivity].
      apply same_detection_iff in E; simpl in E.
      destruct E as [E _]. apply Rabs_def2 in E. lra.
Qed.

End HudTheorems.
